(** * The chat client of ReinhardAI: credit gate, session handling, send flow

    A shallow embedding of
    - [frontend/src/utils/api.js]            (axios instance, interceptors, chatAPI),
    - [frontend/src/contexts/AuthContext.js] (updateUserCredits),
    - [frontend/src/pages/Chat.js]           (createNewSession, selectSession,
                                              deleteSession, sendMessage),
    followed by the properties of the send flow.

    How the JavaScript is read:
    - A handler of a React component is a closure over the values of the render
      that created it.  A handler therefore takes that render's [State] as an
      argument [r] and reads every hook variable from [r]; the [set...]
      functions write to the component state held in the [World].  A handler
      started from the current screen is [handler (state w) w].
    - An [async] handler is run to completion; no other handler is interleaved
      at its [await]s.
    - Exceptions and [try]/[catch]/[finally] are explicit ([Result], [try_catch],
      [try_finally]).
    - The backend is not part of the client: it is a state machine [Backend]
      given as a parameter, each endpoint mapping a server state to a reply and
      a new server state.
    - Every observable action (HTTP request, settled promise, toast, console
      line, state update) is appended to a trace, in program order.
    - Numbers are integers ([Z]); strings are sequences of code units below 256. *)

From Stdlib Require Import QArith.
From stdpp Require Import base strings list gmap.

Open Scope Z_scope.

(** ** JavaScript strings *)

Module JS.

(** White space and line terminators of ECMAScript among the code units
    below 256: TAB, LF, VT, FF, CR, SP and NBSP.  The strings of this
    development have 8-bit code units; [JS16] below has the white space of
    all 16-bit code units, and the two agree on these strings. *)
Definition is_white_space (c : Ascii.ascii) : bool :=
  let n := Ascii.nat_of_ascii c in
  bool_decide (n = 9 ∨ n = 10 ∨ n = 11 ∨ n = 12 ∨ n = 13 ∨ n = 32 ∨ n = 160)%nat.

Fixpoint trimStart (s : string) : string :=
  match s with
  | EmptyString => EmptyString
  | String c s' => if is_white_space c then trimStart s' else s
  end.

Fixpoint trimEnd (s : string) : string :=
  match s with
  | EmptyString => EmptyString
  | String c s' =>
      match trimEnd s' with
      | EmptyString => if is_white_space c then EmptyString else String c EmptyString
      | t => String c t
      end
  end.

(** [String.prototype.trim] *)
Definition trim (s : string) : string := trimEnd (trimStart s).

(** Truthiness: the empty string is falsy, [0] is falsy, [undefined] and
    [null] (here [None]) are falsy. *)
Definition truthy_string (s : string) : bool := negb (bool_decide (s = "")).
Definition truthy_number (n : Z) : bool := negb (bool_decide (n = 0)).


End JS.

(** ** JSON shapes exchanged with the backend *)

Module User.
Record t := { username : string; credits : Z; is_admin : bool }.
(** [{ ...user, credits: newCredits }] *)
Definition with_credits (u : t) (newCredits : Z) : t :=
  {| username := username u; credits := newCredits; is_admin := is_admin u |}.
End User.

Module Message.
Record t := { role : string; content : string }.
End Message.

Module Session.
Record t := { id : string; title : string; model : string; message_count : Z }.
End Session.

(** Body of [GET /chat/sessions/{id}]; [messages] may be missing. *)
Module SessionDetail.
Record t := { messages : option (list Message.t); model : string }.
End SessionDetail.

(** Body of [POST /chat/sessions]. *)
Module SessionData.
Record t := { title : string; model : string }.
End SessionData.

(** Body of [POST /chat]. *)
Module ChatData.
Record t := { messages : list Message.t; model : string;
              max_tokens : Z; temperature : Q }.
End ChatData.

(** Reply of [POST /chat]: [usage] and [usage.total_tokens] may be missing. *)
Module Usage.
Record t := { total_tokens : option Z }.
End Usage.

Module ChatResponse.
Record t := { content : string; usage : option Usage.t }.
End ChatResponse.

(** [error.response] of a failed request: its [status] and [data.detail]. *)
Module HttpError.
Record t := { status : Z; detail : option string }.
End HttpError.

(** ** Exceptions *)

(** What a [catch] clause can receive here: the error axios rejects with
    ([response] is missing when no reply arrived), or the [TypeError] of a
    property read on [null]. *)
Inductive Exn :=
| AxiosError (response : option HttpError.t)
| TypeError.

(** [error.response?.status] *)
Definition response_status (error : Exn) : option Z :=
  match error with
  | AxiosError (Some resp) => Some (HttpError.status resp)
  | _ => None
  end.

(** [error.response?.data?.detail] *)
Definition response_detail (error : Exn) : option string :=
  match error with
  | AxiosError (Some resp) => HttpError.detail resp
  | _ => None
  end.

Inductive Result (A : Type) :=
| Return (a : A)
| Throw (error : Exn).
Arguments Return {A} a.
Arguments Throw {A} error.

(** ** Component state and observable actions *)

(** The hook variables of [AuthProvider] ([user]) and of [Chat]. *)
Record State := {
  user : option User.t;
  selectedModel : string;
  sessions : list Session.t;
  currentSession : option Session.t;
  messages : list Message.t;
  inputMessage : string;
  loading : bool
}.

(** One call of a state setter. *)
Inductive Update :=
| SetUser (u : option User.t)
| SetSelectedModel (m : string)
| SetSessions (l : list Session.t)
| SetCurrentSession (s : option Session.t)
| SetMessages (l : list Message.t)
| SetInputMessage (s : string)
| SetLoading (b : bool).

Definition apply_update (u : Update) (s : State) : State :=
  match u with
  | SetUser x =>
      {| user := x; selectedModel := selectedModel s; sessions := sessions s;
         currentSession := currentSession s; messages := messages s;
         inputMessage := inputMessage s; loading := loading s |}
  | SetSelectedModel x =>
      {| user := user s; selectedModel := x; sessions := sessions s;
         currentSession := currentSession s; messages := messages s;
         inputMessage := inputMessage s; loading := loading s |}
  | SetSessions x =>
      {| user := user s; selectedModel := selectedModel s; sessions := x;
         currentSession := currentSession s; messages := messages s;
         inputMessage := inputMessage s; loading := loading s |}
  | SetCurrentSession x =>
      {| user := user s; selectedModel := selectedModel s; sessions := sessions s;
         currentSession := x; messages := messages s;
         inputMessage := inputMessage s; loading := loading s |}
  | SetMessages x =>
      {| user := user s; selectedModel := selectedModel s; sessions := sessions s;
         currentSession := currentSession s; messages := x;
         inputMessage := inputMessage s; loading := loading s |}
  | SetInputMessage x =>
      {| user := user s; selectedModel := selectedModel s; sessions := sessions s;
         currentSession := currentSession s; messages := messages s;
         inputMessage := x; loading := loading s |}
  | SetLoading x =>
      {| user := user s; selectedModel := selectedModel s; sessions := sessions s;
         currentSession := currentSession s; messages := messages s;
         inputMessage := inputMessage s; loading := x |}
  end.

(** The requests of [chatAPI] that [Chat] issues. *)
Inductive Call :=
| PostChat (chatData : ChatData.t)
| PostChatSessions (sessionData : SessionData.t)
| GetChatSession (sessionId : string)
| DeleteChatSession (sessionId : string).

(** The [data] of a fulfilled request. *)
Inductive Payload :=
| ChatBody (resp : ChatResponse.t)
| SessionBody (s : Session.t)
| DetailBody (d : SessionDetail.t)
| NoBody.

Inductive Event :=
| Request (authorization : option string) (c : Call)
| Fulfilled (c : Call) (data : Payload)
| Rejected (c : Call) (error : Exn)
| ToastError (msg : string)
| ToastSuccess (msg : string)
| ConsoleError (msg : string) (error : Exn)
| Updated (u : Update).

(** ** The backend, seen from the client *)

(** What an endpoint answers: a 2xx body, or a failure whose [response] is
    missing when the request got no reply at all. *)
Inductive Reply (A : Type) :=
| Success (data : A)
| Failure (response : option HttpError.t).
Arguments Success {A} data.
Arguments Failure {A} response.

(** The routes behind [chatAPI]; each one sees the [Authorization] header. *)
Record Backend (Server : Type) := {
  post_chat : option string → ChatData.t → Server → Reply ChatResponse.t * Server;
  post_chat_sessions : option string → SessionData.t → Server → Reply Session.t * Server;
  get_chat_session : option string → string → Server → Reply SessionDetail.t * Server;
  delete_chat_session : option string → string → Server → Reply () * Server
}.
Arguments post_chat {Server} b authorization chatData srv.
Arguments post_chat_sessions {Server} b authorization sessionData srv.
Arguments get_chat_session {Server} b authorization sessionId srv.
Arguments delete_chat_session {Server} b authorization sessionId srv.

(** ** Running JavaScript: state, exceptions and a trace *)

Record World (Server : Type) := {
  server : Server;
  state : State;
  localStorage : gmap string string;
  location : string          (* window.location.href *)
}.
Arguments server {Server} w.
Arguments state {Server} w.
Arguments localStorage {Server} w.
Arguments location {Server} w.

Record Outcome (Server A : Type) := {
  result : Result A;
  after : World Server;
  trace : list Event
}.
Arguments result {Server A} o.
Arguments after {Server A} o.
Arguments trace {Server A} o.

Definition M (Server A : Type) : Type := World Server → Outcome Server A.

Declare Scope js_scope.
Delimit Scope js_scope with js.

Section Run.
Context {Server : Type}.
Local Abbreviation M := (M Server).

Definition with_server (srv : Server) (w : World Server) : World Server :=
  {| server := srv; state := state w;
     localStorage := localStorage w; location := location w |}.

Definition with_state (f : State → State) (w : World Server) : World Server :=
  {| server := server w; state := f (state w);
     localStorage := localStorage w; location := location w |}.

Definition with_localStorage (f : gmap string string → gmap string string)
    (w : World Server) : World Server :=
  {| server := server w; state := state w;
     localStorage := f (localStorage w); location := location w |}.

Definition with_location (href : string) (w : World Server) : World Server :=
  {| server := server w; state := state w;
     localStorage := localStorage w; location := href |}.

(** The events [t] happened before the run that ended in [o]. *)
Definition prepend {A} (t : list Event) (o : Outcome Server A) : Outcome Server A :=
  {| result := result o; after := after o; trace := t ++ trace o |}.

Definition ret {A} (a : A) : M A :=
  λ w, {| result := Return a; after := w; trace := [] |}.

Definition throw {A} (error : Exn) : M A :=
  λ w, {| result := Throw error; after := w; trace := [] |}.

Definition bind {A B} (m : M A) (k : A → M B) : M B :=
  λ w,
    let o := m w in
    match result o with
    | Return a => prepend (trace o) (k a (after o))
    | Throw error => {| result := Throw error; after := after o; trace := trace o |}
    end.

(** [try { body } catch (error) { handler }] *)
Definition try_catch {A} (body : M A) (handler : Exn → M A) : M A :=
  λ w,
    let o := body w in
    match result o with
    | Return a => o
    | Throw error => prepend (trace o) (handler error (after o))
    end.

(** [try { body } finally { fin }]: [fin] runs either way; an exception of
    [fin] replaces the completion of [body]. *)
Definition try_finally {A} (body : M A) (fin : M ()) : M A :=
  λ w,
    let o := body w in
    let o' := fin (after o) in
    {| result := match result o' with
                 | Return _ => result o
                 | Throw error => Throw error
                 end;
       after := after o';
       trace := trace o ++ trace o' |}.

Definition emit (e : Event) : M () :=
  λ w, {| result := Return (); after := w; trace := [e] |}.

(** A state setter: the update reaches the component state and the trace. *)
Definition set_state (u : Update) : M () :=
  λ w, {| result := Return (); after := with_state (apply_update u) w;
          trace := [Updated u] |}.

Definition set_localStorage (f : gmap string string → gmap string string) : M () :=
  λ w, {| result := Return (); after := with_localStorage f w; trace := [] |}.

Definition set_location (href : string) : M () :=
  λ w, {| result := Return (); after := with_location href w; trace := [] |}.

(** The request leaves the browser: the route runs on the server state. *)
Definition transmit {A} (authorization : option string) (c : Call)
    (route : Server → Reply A * Server) : M (Reply A) :=
  λ w, {| result := Return (route (server w)).1;
          after := with_server (route (server w)).2 w;
          trace := [Request authorization c] |}.

(** The promise of request [c] settles with the completion of [m]. *)
Definition settle {A} (c : Call) (body : A → Payload) (m : M A) : M A :=
  λ w,
    let o := m w in
    {| result := result o; after := after o;
       trace := trace o ++ [match result o with
                            | Return data => Fulfilled c (body data)
                            | Throw error => Rejected c error
                            end] |}.

End Run.

Notation "x ← m ; k" := (bind m (λ x, k))
  (at level 20, m at level 100, k at level 200, only parsing) : js_scope.
Notation "m ;; k" := (bind m (λ _, k))
  (at level 100, k at level 200, only parsing, right associativity) : js_scope.

Definition setUser {Server} (u : option User.t) : M Server () := set_state (SetUser u).
Definition setSelectedModel {Server} (m : string) : M Server () := set_state (SetSelectedModel m).
Definition setSessions {Server} (l : list Session.t) : M Server () := set_state (SetSessions l).
Definition setCurrentSession {Server} (s : option Session.t) : M Server () :=
  set_state (SetCurrentSession s).
Definition setMessages {Server} (l : list Message.t) : M Server () := set_state (SetMessages l).
Definition setInputMessage {Server} (s : string) : M Server () := set_state (SetInputMessage s).
Definition setLoading {Server} (b : bool) : M Server () := set_state (SetLoading b).

Definition toast_error {Server} (msg : string) : M Server () := emit (ToastError msg).
Definition toast_success {Server} (msg : string) : M Server () := emit (ToastSuccess msg).
Definition console_error {Server} (msg : string) (error : Exn) : M Server () :=
  emit (ConsoleError msg error).

Open Scope js_scope.

(** ** frontend/src/utils/api.js *)

Section Client.
Context {Server : Type} (backend : Backend Server).

(** [getToken], [removeToken] *)
Definition getToken (w : World Server) : option string := localStorage w !! "token".
Definition removeToken : M Server () := set_localStorage (delete "token").

(** [api.interceptors.request.use]: a non-empty token becomes the
    [Authorization] header. *)
Definition request_interceptor (w : World Server) : option string :=
  match getToken w with
  | Some token => if JS.truthy_string token then Some ("Bearer " +:+ token) else None
  | None => None
  end.

(** [api.interceptors.response.use], first argument: [(response) => response]. *)
Definition response_fulfilled {A} (response : A) : M Server A := ret response.

(** [api.interceptors.response.use], second argument. *)
Definition response_rejected {A} (error : Exn) : M Server A :=
  (if bool_decide (response_status error = Some 401) then
     removeToken;;
     set_location "/login";;
     toast_error "Session expired. Please login again."
   else if bool_decide (response_status error = Some 402) then
     toast_error "Insufficient credits. Please contact admin."
   else ret ());;
  throw error.

(** One request through the axios instance [api]. *)
Definition api_request {A} (c : Call) (body : A → Payload)
    (route : option string → Server → Reply A * Server) : M Server A :=
  λ w,
    let authorization := request_interceptor w in
    (reply ← transmit authorization c (route authorization);
     settle c body
       match reply with
       | Success data => response_fulfilled data
       | Failure response => response_rejected (AxiosError response)
       end) w.

(** [chatAPI] *)
Definition chatAPI_sendMessage (chatData : ChatData.t) : M Server ChatResponse.t :=
  api_request (PostChat chatData) ChatBody (λ a, post_chat backend a chatData).
Definition chatAPI_createSession (sessionData : SessionData.t) : M Server Session.t :=
  api_request (PostChatSessions sessionData) SessionBody
    (λ a, post_chat_sessions backend a sessionData).
Definition chatAPI_getSession (sessionId : string) : M Server SessionDetail.t :=
  api_request (GetChatSession sessionId) DetailBody (λ a, get_chat_session backend a sessionId).
Definition chatAPI_deleteSession (sessionId : string) : M Server () :=
  api_request (DeleteChatSession sessionId) (λ _, NoBody)
    (λ a, delete_chat_session backend a sessionId).

(** ** frontend/src/contexts/AuthContext.js *)

(** [updateUserCredits], a closure over the [user] of render [r]. *)
Definition updateUserCredits (r : State) (newCredits : Z) : M Server () :=
  match user r with
  | Some u => setUser (Some (User.with_credits u newCredits))
  | None => ret ()
  end.

(** ** frontend/src/pages/Chat.js *)

Definition createNewSession (r : State) : M Server () :=
  try_catch
    (response ← chatAPI_createSession
                  {| SessionData.title := "New Chat"; SessionData.model := selectedModel r |};
     let newSession := response in
     setSessions (newSession :: sessions r);;
     setCurrentSession (Some newSession);;
     setMessages [];;
     toast_success "New chat session created")
    (λ error,
       console_error "Error creating session:" error;;
       toast_error "Failed to create new session").

Definition selectSession (r : State) (session : Session.t) : M Server () :=
  try_catch
    (response ← chatAPI_getSession (Session.id session);
     setCurrentSession (Some session);;
     setMessages (default [] (SessionDetail.messages response));;
     setSelectedModel (SessionDetail.model response))
    (λ error,
       console_error "Error loading session:" error;;
       toast_error "Failed to load session").

(** [deleteSession(sessionId, e)]; [e.stopPropagation()] only keeps the click
    from selecting the session and is left out. *)
Definition deleteSession (r : State) (sessionId : string) : M Server () :=
  try_catch
    (chatAPI_deleteSession sessionId;;
     setSessions (filter (λ s, Session.id s ≠ sessionId) (sessions r));;
     (if bool_decide (Session.id <$> currentSession r = Some sessionId) then
        setCurrentSession None;;
        setMessages []
      else ret ());;
     toast_success "Session deleted")
    (λ error,
       console_error "Error deleting session:" error;;
       toast_error "Failed to delete session").

(** [!user?.is_admin]: true without a user. *)
Definition not_admin (r : State) : bool :=
  negb (from_option User.is_admin false (user r)).

(** [user?.credits <= 0]: false without a user ([undefined <= 0]). *)
Definition credits_exhausted (r : State) : bool :=
  from_option (λ u, bool_decide (User.credits u ≤ 0)) false (user r).

(** [response.data.usage?.total_tokens] *)
Definition total_tokens (response : ChatResponse.t) : option Z :=
  ChatResponse.usage response ≫= Usage.total_tokens.

(** [error.response?.data?.detail || 'Failed to send message'] *)
Definition errorMessage (error : Exn) : string :=
  match response_detail error with
  | Some detail => if JS.truthy_string detail then detail else "Failed to send message"
  | None => "Failed to send message"
  end.

Definition sendMessage (r : State) : M Server () :=
  if negb (JS.truthy_string (JS.trim (inputMessage r))) then ret ()
  else if not_admin r && credits_exhausted r then
    (* Check credits *)
    toast_error "Insufficient credits. Please contact admin."
  else
    (* Create session if none exists *)
    match currentSession r with
    | None => createNewSession r
    | Some _ => ret ()
    end;;
    let userMessage := {| Message.role := "user";
                          Message.content := JS.trim (inputMessage r) |} in
    let newMessages := messages r ++ [userMessage] in
    setMessages newMessages;;
    setInputMessage "";;
    setLoading true;;
    try_finally
      (try_catch
         (response ← chatAPI_sendMessage
                       {| ChatData.messages := newMessages;
                          ChatData.model := selectedModel r;
                          ChatData.max_tokens := 1000;
                          ChatData.temperature := (7 # 10)%Q |};
          let assistantMessage := {| Message.role := "assistant";
                                     Message.content := ChatResponse.content response |} in
          setMessages (newMessages ++ [assistantMessage]);;
          (* Update user credits *)
          match total_tokens response with
          | Some tokens =>
              if JS.truthy_number tokens && not_admin r then
                match user r with
                | Some u =>
                    (* exact between safe integers, see [JS.safe_integer] *)
                    let newCredits := User.credits u - tokens in
                    updateUserCredits r newCredits
                | None => throw TypeError      (* [user.credits] on [null] *)
                end
              else ret ()
          | None => ret ()
          end)
         (λ error,
            console_error "Error sending message:" error;;
            let errorMessage := errorMessage error in
            toast_error errorMessage;;
            (* Remove the user message if send failed *)
            setMessages (messages r)))
      (setLoading false).

End Client.

Arguments sendMessage {Server} backend r w.
Arguments createNewSession {Server} backend r w.
Arguments selectSession {Server} backend r session w.
Arguments deleteSession {Server} backend r sessionId w.
Arguments api_request {Server A} c body route w.

(** ** Reading a trace *)

(** Every event of [t] that satisfies [Q] comes after an event that
    satisfies [P]. *)
Definition precedes (P Q : Event → Prop) (t : list Event) : Prop :=
  ∀ pre e post, t = pre ++ e :: post → Q e → ∃ e', e' ∈ pre ∧ P e'.

(** The credit settlement: the only writer of [user] in [Chat] is
    [updateUserCredits]. *)
Definition debit (e : Event) : Prop := ∃ u, e = Updated (SetUser u).

(** The message list of render [r] extended by a user turn and an assistant
    turn. *)
Definition exchange_appended (r : State) (e : Event) : Prop :=
  ∃ text answer,
    e = Updated (SetMessages (messages r ++
          [ {| Message.role := "user"; Message.content := text |};
            {| Message.role := "assistant"; Message.content := answer |} ])).

Definition completion_returned (e : Event) : Prop :=
  ∃ chatData response, e = Fulfilled (PostChat chatData) (ChatBody response).

Definition completion_requested (e : Event) : Prop :=
  ∃ authorization chatData, e = Request authorization (PostChat chatData).

(** The toasts of [toast.error]. *)
Definition is_toast_error (e : Event) : bool :=
  match e with ToastError _ => true | _ => false end.


(** The two turns a successful send adds. *)
Definition exchange (input : string) (response : ChatResponse.t) : list Message.t :=
  [ {| Message.role := "user"; Message.content := JS.trim input |};
    {| Message.role := "assistant"; Message.content := ChatResponse.content response |} ].

(** The component state after the updates of a trace, in order. *)
Definition replay (t : list Event) (s : State) : State :=
  foldl (λ s e, match e with Updated u => apply_update u s | _ => s end) s t.

(** Every change of the component state goes through a setter: the state
    after a run of [m] is the state before it with the run's updates replayed. *)
Definition logged {Server A} (m : M Server A) : Prop :=
  ∀ w, state (after (m w)) = replay (trace (m w)) (state w).

(** What [response_rejected] shows and leaves behind. *)
Definition rejection_toasts (error : Exn) : list Event :=
  if bool_decide (response_status error = Some 401) then
    [ToastError "Session expired. Please login again."]
  else if bool_decide (response_status error = Some 402) then
    [ToastError "Insufficient credits. Please contact admin."]
  else [].

Definition rejection_world {Server} (error : Exn) (w : World Server) : World Server :=
  if bool_decide (response_status error = Some 401) then
    with_location "/login" (with_localStorage (delete "token") w)
  else w.

(** The values [sendMessage] builds from render [r]. *)
Definition userMessage (r : State) : Message.t :=
  {| Message.role := "user"; Message.content := JS.trim (inputMessage r) |}.

Definition assistantMessage (response : ChatResponse.t) : Message.t :=
  {| Message.role := "assistant"; Message.content := ChatResponse.content response |}.

Definition chatData (r : State) : ChatData.t :=
  {| ChatData.messages := messages r ++ [userMessage r];
     ChatData.model := selectedModel r;
     ChatData.max_tokens := 1000;
     ChatData.temperature := (7 # 10)%Q |}.

Definition sessionData (r : State) : SessionData.t :=
  {| SessionData.title := "New Chat"; SessionData.model := selectedModel r |}.

(** *** The traces of [sendMessage]

    The shapes a run of [sendMessage] from render [r] can leave, phase by
    phase; [sendMessage_sent] below shows every run has one of them. *)

(** Session resolution: [if (!currentSession) await createNewSession()]. *)
Inductive resolution (r : State) : list Event → Prop :=
| resolution_selected s :
    currentSession r = Some s →
    resolution r []
| resolution_created authorization s :
    currentSession r = None →
    resolution r
      [ Request authorization (PostChatSessions (sessionData r));
        Fulfilled (PostChatSessions (sessionData r)) (SessionBody s);
        Updated (SetSessions (s :: sessions r));
        Updated (SetCurrentSession (Some s));
        Updated (SetMessages []);
        ToastSuccess "New chat session created" ]
| resolution_failed authorization error :
    currentSession r = None →
    resolution r
      (Request authorization (PostChatSessions (sessionData r))
       :: rejection_toasts error
       ++ [ Rejected (PostChatSessions (sessionData r)) error;
            ConsoleError "Error creating session:" error;
            ToastError "Failed to create new session" ]).

(** Settlement: the statements after [setMessages([...newMessages,
    assistantMessage])] inside the [try]. *)
Inductive settlement (r : State) (response : ChatResponse.t) : list Event → Prop :=
| settlement_skipped :
    (not_admin r = false ∨ total_tokens response = None
     ∨ total_tokens response = Some 0) →
    settlement r response []
| settlement_debited u tokens :
    user r = Some u → User.is_admin u = false →
    total_tokens response = Some tokens → tokens ≠ 0 →
    settlement r response
      [ Updated (SetUser (Some (User.with_credits u (User.credits u - tokens)))) ]
| settlement_no_user tokens :
    user r = None →
    total_tokens response = Some tokens → tokens ≠ 0 →
    settlement r response
      [ ConsoleError "Error sending message:" TypeError;
        ToastError "Failed to send message";
        Updated (SetMessages (messages r)) ].

(** The [try]/[catch] around [chatAPI.sendMessage]. *)
Inductive completion (r : State) : list Event → Prop :=
| completion_returned_ response t :
    settlement r response t →
    completion r
      ([ Fulfilled (PostChat (chatData r)) (ChatBody response);
         Updated (SetMessages (messages r ++ [userMessage r; assistantMessage response])) ]
       ++ t)
| completion_failed error :
    completion r
      (rejection_toasts error
       ++ [ Rejected (PostChat (chatData r)) error;
            ConsoleError "Error sending message:" error;
            ToastError (errorMessage error);
            Updated (SetMessages (messages r)) ]).

Inductive sent (r : State) : list Event → Prop :=
| sent_blank :
    JS.trim (inputMessage r) = "" →
    sent r []
| sent_denied :
    JS.trim (inputMessage r) ≠ "" →
    not_admin r = true → credits_exhausted r = true →
    sent r [ToastError "Insufficient credits. Please contact admin."]
| sent_passed t1 authorization t2 :
    JS.trim (inputMessage r) ≠ "" →
    not_admin r && credits_exhausted r = false →
    resolution r t1 →
    completion r t2 →
    sent r
      (t1
       ++ [ Updated (SetMessages (messages r ++ [userMessage r]));
            Updated (SetInputMessage "");
            Updated (SetLoading true);
            Request authorization (PostChat (chatData r)) ]
       ++ t2
       ++ [ Updated (SetLoading false) ]).

(** ** The Session Store of the backend *)

Module SessionStore.

(** Modelled from the spec: the backend is not among the sources; section 3
    gives a ChatSession its owner, title, selected model and ordered messages
    (the identifier is the key of the store, the message count the length of
    [messages]). *)
Record ChatSession := {
  owner : string;
  title : string;
  model : string;
  messages : list Message.t
}.

(** Modelled from the spec: the two session errors of section 7. *)
Inductive Error := NotFound | Forbidden.

(** Modelled from the spec: the backend is not among the sources; section 4.2
    describes the store as sessions keyed by session id, with
    [getSession(sessionId, ownerId)] that fails with NotFound/Forbidden if the
    session is missing or not owned by the caller. *)
Definition getSession (sessionId ownerId : string) (store : gmap string ChatSession)
    : Error + ChatSession :=
  match store !! sessionId with
  | None => inl NotFound
  | Some s => if bool_decide (owner s = ownerId) then inr s else inl Forbidden
  end.

(** Modelled from the spec: [deleteSession(sessionId, ownerId)] removes the
    session and fails with NotFound if it is absent or not owned. *)
Definition deleteSession (sessionId ownerId : string) (store : gmap string ChatSession)
    : Error + gmap string ChatSession :=
  match store !! sessionId with
  | None => inl NotFound
  | Some s =>
      if bool_decide (owner s = ownerId) then inr (delete sessionId store)
      else inl NotFound
  end.

(** Modelled from the spec: [createSession(ownerId, title, modelId)] makes a
    session with an empty message list; the new identifier is [sessionId]. *)
Definition createSession (sessionId ownerId title modelId : string)
    (store : gmap string ChatSession) : ChatSession * gmap string ChatSession :=
  let s := {| owner := ownerId; title := title; model := modelId; messages := [] |} in
  (s, <[sessionId := s]> store).

(** Modelled from the spec: the session record of section 6 as the client
    reads it ([id], [title], [model], [message_count]). *)
Definition summary (sessionId : string) (s : ChatSession) : Session.t :=
  {| Session.id := sessionId; Session.title := title s; Session.model := model s;
     Session.message_count := Z.of_nat (length (messages s)) |}.

(** Modelled from the spec: the HTTP reply that carries a store error, and
    the one for a request without a valid credential; the spec names the
    errors, the status codes are the usual ones. *)
Definition http_error (e : Error) : option HttpError.t :=
  Some {| HttpError.status := match e with NotFound => 404 | Forbidden => 403 end;
          HttpError.detail := None |}.

Definition unauthorized : option HttpError.t :=
  Some {| HttpError.status := 401; HttpError.detail := None |}.

Section Routes.
(** What the spec leaves to collaborators: the authentication layer
    ([authenticate] reads the caller's user id from the bearer credential),
    the choice of a new identifier, and the completion route. *)
Variable authenticate : option string → option string.
Variable fresh : gmap string ChatSession → string.
Variable chat : option string → ChatData.t → gmap string ChatSession →
                Reply ChatResponse.t * gmap string ChatSession.

(** Modelled from the spec: the routes of section 6 over the store,
    [DELETE /chat/sessions/{id}] answering 204 or NotFound. *)
Definition backend : Backend (gmap string ChatSession) :=
  {| post_chat := chat;
     post_chat_sessions := λ authorization sessionData store,
       match authenticate authorization with
       | None => (Failure unauthorized, store)
       | Some ownerId =>
           let sessionId := fresh store in
           let '(s, store') :=
             createSession sessionId ownerId (SessionData.title sessionData)
               (SessionData.model sessionData) store in
           (Success (summary sessionId s), store')
       end;
     get_chat_session := λ authorization sessionId store,
       match authenticate authorization with
       | None => (Failure unauthorized, store)
       | Some ownerId =>
           match getSession sessionId ownerId store with
           | inr s => (Success {| SessionDetail.messages := Some (messages s);
                                  SessionDetail.model := model s |}, store)
           | inl e => (Failure (http_error e), store)
           end
       end;
     delete_chat_session := λ authorization sessionId store,
       match authenticate authorization with
       | None => (Failure unauthorized, store)
       | Some ownerId =>
           match deleteSession sessionId ownerId store with
           | inr store' => (Success (), store')
           | inl e => (Failure (http_error e), store)
           end
       end |}.

End Routes.

End SessionStore.

(** ** A scripted backend for concrete runs *)

Module Scripted.

(** Each route answers with the next reply of its script; an exhausted script
    is a request that gets no reply. *)
Record Server := {
  on_chat : list (Reply ChatResponse.t);
  on_create : list (Reply Session.t);
  on_get : list (Reply SessionDetail.t);
  on_delete : list (Reply ())
}.

Definition next {A} (script : list (Reply A)) : Reply A * list (Reply A) :=
  match script with
  | reply :: rest => (reply, rest)
  | [] => (Failure None, [])
  end.

Definition backend : Backend Server :=
  {| post_chat := λ _ _ s,
       let '(reply, rest) := next (on_chat s) in
       (reply, {| on_chat := rest; on_create := on_create s;
                  on_get := on_get s; on_delete := on_delete s |});
     post_chat_sessions := λ _ _ s,
       let '(reply, rest) := next (on_create s) in
       (reply, {| on_chat := on_chat s; on_create := rest;
                  on_get := on_get s; on_delete := on_delete s |});
     get_chat_session := λ _ _ s,
       let '(reply, rest) := next (on_get s) in
       (reply, {| on_chat := on_chat s; on_create := on_create s;
                  on_get := rest; on_delete := on_delete s |});
     delete_chat_session := λ _ _ s,
       let '(reply, rest) := next (on_delete s) in
       (reply, {| on_chat := on_chat s; on_create := on_create s;
                  on_get := on_get s; on_delete := rest |}) |}.

Definition alice : User.t :=
  {| User.username := "alice"; User.credits := 1000; User.is_admin := false |}.
Definition broke : User.t :=
  {| User.username := "bob"; User.credits := 0; User.is_admin := false |}.
Definition admin : User.t :=
  {| User.username := "Admin"; User.credits := 999999999; User.is_admin := true |}.

Definition hello : Message.t := {| Message.role := "user"; Message.content := "hello" |}.
Definition hi : Message.t := {| Message.role := "assistant"; Message.content := "hi" |}.

Definition chat1 : Session.t :=
  {| Session.id := "s1"; Session.title := "New Chat";
     Session.model := "mistralai/mistral-7b-instruct:free"; Session.message_count := 0 |}.

Definition answer (tokens : option Z) : ChatResponse.t :=
  {| ChatResponse.content := "42";
     ChatResponse.usage := Some {| Usage.total_tokens := tokens |} |}.

Definition rate_limited : option HttpError.t :=
  Some {| HttpError.status := 429; HttpError.detail := Some "Rate limit exceeded" |}.

Definition expired : option HttpError.t :=
  Some {| HttpError.status := 401;
          HttpError.detail := Some "Could not validate credentials" |}.

Definition screen (u : User.t) (current : option Session.t) (input : string) : State :=
  {| user := Some u; selectedModel := "mistralai/mistral-7b-instruct:free";
     sessions := from_option (λ s, [s]) [] current; currentSession := current;
     messages := from_option (λ _, [hello; hi]) [] current;
     inputMessage := input; loading := false |}.

Definition world (srv : Server) (st : State) : World Server :=
  {| server := srv; state := st;
     localStorage := {[ "token" := "jwt" ]}; location := "/chat" |}.

Definition replies (chat : list (Reply ChatResponse.t)) (create : list (Reply Session.t))
    : Server :=
  {| on_chat := chat; on_create := create; on_get := []; on_delete := [] |}.

End Scripted.

(** ** A store with one session, for concrete runs *)

Module StoreDemo.

Definition authenticate (authorization : option string) : option string :=
  if bool_decide (authorization = Some "Bearer jwt") then Some "alice" else None.

Definition fresh (store : gmap string SessionStore.ChatSession) : string := "s2".

Definition chat (authorization : option string) (chatData : ChatData.t)
    (store : gmap string SessionStore.ChatSession)
    : Reply ChatResponse.t * gmap string SessionStore.ChatSession :=
  (Failure None, store).

Definition backend : Backend (gmap string SessionStore.ChatSession) :=
  SessionStore.backend authenticate fresh chat.

Definition stored : SessionStore.ChatSession :=
  {| SessionStore.owner := "alice"; SessionStore.title := "New Chat";
     SessionStore.model := "mistralai/mistral-7b-instruct:free";
     SessionStore.messages := [Scripted.hello; Scripted.hi] |}.

Definition listed : Session.t := SessionStore.summary "s1" stored.

Definition world : World (gmap string SessionStore.ChatSession) :=
  {| server := {[ "s1" := stored ]};
     state := {| user := Some Scripted.alice;
                 selectedModel := "mistralai/mistral-7b-instruct:free";
                 sessions := [listed]; currentSession := Some listed;
                 messages := [Scripted.hello; Scripted.hi];
                 inputMessage := ""; loading := false |};
     localStorage := {[ "token" := "jwt" ]}; location := "/chat" |}.

End StoreDemo.

(** ** More of frontend/src/utils/api.js and frontend/src/pages/Chat.js *)

(** [setToken] *)
Definition setToken {Server} (token : string) : M Server () :=
  set_localStorage (insert "token" token).

(** ** Strings as sequences of 16-bit code units *)

(** A JavaScript string is a sequence of 16-bit code units.  The strings of
    this development have 8-bit code units: they are the JavaScript strings
    whose code units are all below 256, and [code_units] reads them as such.
    [JS16.trim] is [String.prototype.trim] on any sequence of code units. *)
Module JS16.

Definition code_units (s : string) : list N :=
  Ascii.N_of_ascii <$> String.list_ascii_of_string s.

(** WhiteSpace and LineTerminator of ECMAScript: TAB, LF, VT, FF, CR, SP,
    NBSP, U+1680, U+2000 to U+200A, U+2028, U+2029, U+202F, U+205F, U+3000
    and U+FEFF. *)
Definition is_white_space (u : N) : bool :=
  ((9 <=? u) && (u <=? 13) || (u =? 32) || (u =? 160) || (u =? 5760)
   || (8192 <=? u) && (u <=? 8202) || (u =? 8232) || (u =? 8233) || (u =? 8239)
   || (u =? 8287) || (u =? 12288) || (u =? 65279))%N.

Fixpoint trimStart (l : list N) : list N :=
  match l with
  | [] => []
  | u :: l' => if is_white_space u then trimStart l' else l
  end.

Fixpoint trimEnd (l : list N) : list N :=
  match l with
  | [] => []
  | u :: l' =>
      match trimEnd l' with
      | [] => if is_white_space u then [] else [u]
      | t => u :: t
      end
  end.

Definition trim (l : list N) : list N := trimEnd (trimStart l).

End JS16.

(** A request to [POST /chat]. *)
Definition is_completion_request (e : Event) : bool :=
  match e with Request _ (PostChat _) => true | _ => false end.

Module ModelName.
Import Stdlib.Strings.Ascii.

(** What a JavaScript expression of [Chat] can evaluate to where a string is
    expected: a string, a member inherited from [Object.prototype], or
    [undefined]. *)
Inductive Value :=
| Text (s : string)
| Inherited (member : string)
| Undefined.

(** [s.split(sep)] for a separator of one character. *)
Fixpoint split (sep : ascii) (s : string) : list string :=
  match s with
  | EmptyString => [EmptyString]
  | String c s' =>
      if bool_decide (c = sep) then EmptyString :: split sep s'
      else
        match split sep s' with
        | part :: parts => String c part :: parts
        | [] => [String c EmptyString]
        end
  end.

(** [s.replace(/c/g, by)] for a pattern of one character. *)
Fixpoint replace_all (c : ascii) (by_ : string) (s : string) : string :=
  match s with
  | EmptyString => EmptyString
  | String c' s' =>
      (if bool_decide (c' = c) then by_ else String c' EmptyString)
      +:+ replace_all c by_ s'
  end.

(** [formatModelName]; reading [parts[parts.length - 1]] of an empty array
    would give [undefined], and [undefined.replace] throws. *)
Definition formatModelName (modelId : string) : Result string :=
  let parts := split "/" modelId in
  match last parts with
  | Some modelName => Return (replace_all ":" " - " (replace_all "-" " " modelName))
  | None => Throw TypeError
  end.

(** The own properties of the [providers] object literal. *)
Definition providers : gmap string string :=
  list_to_map
    [ ("mistralai", "Mistral AI");
      ("meta-llama", "Meta");
      ("anthropic", "Anthropic");
      ("openai", "OpenAI");
      ("google", "Google");
      ("microsoft", "Microsoft") ].

(** The members every object literal inherits from [Object.prototype]; all
    of them are functions or objects, hence truthy. *)
Definition object_prototype : list string :=
  [ "constructor"; "hasOwnProperty"; "isPrototypeOf"; "propertyIsEnumerable";
    "toLocaleString"; "toString"; "valueOf"; "__proto__";
    "__defineGetter__"; "__defineSetter__"; "__lookupGetter__"; "__lookupSetter__" ].

(** [getModelProvider]: [providers[provider] || provider]. *)
Definition getModelProvider (modelId : string) : Value :=
  match head (split "/" modelId) with
  | Some provider =>
      match providers !! provider with
      | Some name => if JS.truthy_string name then Text name else Text provider
      | None =>
          if bool_decide (provider ∈ object_prototype) then Inherited provider
          else Text provider
      end
  | None => Undefined
  end.

End ModelName.

(** ** The runner, over the hooks and requests of any component *)

(** [AuthProvider] and the loaders of [Chat] keep hook variables and issue
    requests that the definitions above do not mention.  They run on the
    same axios instance; [Page] is the runner above with the component's
    state, setters and requests as parameters. *)
Module Page.

Record Component := {
  Server : Type;
  State : Type;
  Update : Type;
  Call : Type;
  apply_update : Update → State → State
}.

Inductive Event (C : Component) :=
| Request (authorization : option string) (c : Call C)
| Fulfilled (c : Call C)
| Rejected (c : Call C) (error : Exn)
| ToastError (msg : string)
| ToastSuccess (msg : string)
| ConsoleError (msg : string) (error : Exn)
| Updated (u : Update C).
Arguments Request {C} & authorization c.
Arguments Fulfilled {C} & c.
Arguments Rejected {C} & c error.
Arguments ToastError {C} msg.
Arguments ToastSuccess {C} msg.
Arguments ConsoleError {C} msg error.
Arguments Updated {C} & u.

Record World (C : Component) := {
  server : Server C;
  state : State C;
  localStorage : gmap string string;
  location : string
}.
Arguments server {C} w.
Arguments state {C} w.
Arguments localStorage {C} w.
Arguments location {C} w.

Record Outcome (C : Component) (A : Type) := {
  result : Result A;
  after : World C;
  trace : list (Event C)
}.
Arguments result {C A} o.
Arguments after {C A} o.
Arguments trace {C A} o.

Definition M (C : Component) (A : Type) : Type := World C → Outcome C A.

Section Runner.
Context {C : Component}.

Definition with_server (srv : Server C) (w : World C) : World C :=
  {| server := srv; state := state w;
     localStorage := localStorage w; location := location w |}.

Definition with_state (f : State C → State C) (w : World C) : World C :=
  {| server := server w; state := f (state w);
     localStorage := localStorage w; location := location w |}.

Definition with_localStorage (f : gmap string string → gmap string string)
    (w : World C) : World C :=
  {| server := server w; state := state w;
     localStorage := f (localStorage w); location := location w |}.

Definition with_location (href : string) (w : World C) : World C :=
  {| server := server w; state := state w;
     localStorage := localStorage w; location := href |}.

Definition prepend {A} (t : list (Event C)) (o : Outcome C A) : Outcome C A :=
  {| result := result o; after := after o; trace := t ++ trace o |}.

Definition ret {A} (a : A) : M C A :=
  λ w, {| result := Return a; after := w; trace := [] |}.

Definition throw {A} (error : Exn) : M C A :=
  λ w, {| result := Throw error; after := w; trace := [] |}.

Definition bind {A B} (m : M C A) (k : A → M C B) : M C B :=
  λ w,
    let o := m w in
    match result o with
    | Return a => prepend (trace o) (k a (after o))
    | Throw error => {| result := Throw error; after := after o; trace := trace o |}
    end.

(** [try { body } catch (error) { handler }] *)
Definition try_catch {A} (body : M C A) (handler : Exn → M C A) : M C A :=
  λ w,
    let o := body w in
    match result o with
    | Return a => o
    | Throw error => prepend (trace o) (handler error (after o))
    end.

(** [try { body } finally { fin }] *)
Definition try_finally {A} (body : M C A) (fin : M C ()) : M C A :=
  λ w,
    let o := body w in
    let o' := fin (after o) in
    {| result := match result o' with
                 | Return _ => result o
                 | Throw error => Throw error
                 end;
       after := after o';
       trace := trace o ++ trace o' |}.

Definition emit (e : Event C) : M C () :=
  λ w, {| result := Return (); after := w; trace := [e] |}.

Definition set_state (u : Update C) : M C () :=
  λ w, {| result := Return (); after := with_state (apply_update C u) w;
          trace := [Updated u] |}.

Definition set_localStorage (f : gmap string string → gmap string string) : M C () :=
  λ w, {| result := Return (); after := with_localStorage f w; trace := [] |}.

Definition set_location (href : string) : M C () :=
  λ w, {| result := Return (); after := with_location href w; trace := [] |}.

Definition transmit {A} (authorization : option string) (c : Call C)
    (route : Server C → Reply A * Server C) : M C (Reply A) :=
  λ w, {| result := Return (route (server w)).1;
          after := with_server (route (server w)).2 w;
          trace := [Request authorization c] |}.

Definition settle {A} (c : Call C) (m : M C A) : M C A :=
  λ w,
    let o := m w in
    {| result := result o; after := after o;
       trace := trace o ++ [match result o with
                            | Return _ => Fulfilled c
                            | Throw error => Rejected c error
                            end] |}.

Definition toast_error (msg : string) : M C () := emit (ToastError msg).
Definition toast_success (msg : string) : M C () := emit (ToastSuccess msg).
Definition console_error (msg : string) (error : Exn) : M C () :=
  emit (ConsoleError msg error).

End Runner.

Declare Scope page_scope.
Delimit Scope page_scope with page.
Notation "x ← m ; k" := (bind m (λ x, k))
  (at level 20, m at level 100, k at level 200, only parsing) : page_scope.
Notation "m ;; k" := (bind m (λ _, k))
  (at level 100, k at level 200, only parsing, right associativity) : page_scope.
Local Open Scope page_scope.

(** *** frontend/src/utils/api.js *)

Section Api.
Context {C : Component}.

(** [getToken], [setToken], [removeToken] *)
Definition getToken (w : World C) : option string := localStorage w !! "token".
Definition setToken (token : string) : M C () := set_localStorage (insert "token" token).
Definition removeToken : M C () := set_localStorage (delete "token").

(** [api.interceptors.request.use] *)
Definition request_interceptor (w : World C) : option string :=
  match getToken w with
  | Some token => if JS.truthy_string token then Some ("Bearer " +:+ token) else None
  | None => None
  end.

(** [api.interceptors.response.use] *)
Definition response_fulfilled {A} (response : A) : M C A := ret response.

Definition response_rejected {A} (error : Exn) : M C A :=
  (if bool_decide (response_status error = Some 401) then
     removeToken;;
     set_location "/login";;
     toast_error "Session expired. Please login again."
   else if bool_decide (response_status error = Some 402) then
     toast_error "Insufficient credits. Please contact admin."
   else ret ());;
  throw error.

(** One request through the axios instance [api]. *)
Definition api_request {A} (c : Call C)
    (route : option string → Server C → Reply A * Server C) : M C A :=
  λ w,
    let authorization := request_interceptor w in
    (reply ← transmit authorization c (route authorization);
     settle c
       match reply with
       | Success data => response_fulfilled data
       | Failure response => response_rejected (AxiosError response)
       end) w.

End Api.

(** What [response_rejected] shows and leaves behind. *)
Definition rejection_toasts {C} (error : Exn) : list (Event C) :=
  if bool_decide (response_status error = Some 401) then
    [ToastError "Session expired. Please login again."]
  else if bool_decide (response_status error = Some 402) then
    [ToastError "Insufficient credits. Please contact admin."]
  else [].

Definition rejection_world {C} (error : Exn) (w : World C) : World C :=
  if bool_decide (response_status error = Some 401) then
    with_location "/login" (with_localStorage (delete "token") w)
  else w.

Definition is_request {C} (e : Event C) : bool :=
  match e with Request _ _ => true | _ => false end.

Definition is_toast {C} (e : Event C) : bool :=
  match e with ToastError _ | ToastSuccess _ => true | _ => false end.

End Page.

(** ** frontend/src/contexts/AuthContext.js *)

Module Auth.
Import Page.
Local Open Scope page_scope.

(** The hook variables of [AuthProvider]. *)
Record State := { user : option User.t; loading : bool }.

Inductive Update :=
| SetUser (u : option User.t)
| SetLoading (b : bool).

Definition apply_update (u : Update) (s : State) : State :=
  match u with
  | SetUser x => {| user := x; loading := loading s |}
  | SetLoading x => {| user := user s; loading := x |}
  end.

(** [response.data] of [POST /auth/login] *)
Module LoginData.
Record t := { access_token : string; user : User.t }.
End LoginData.

(** The requests of [authAPI]; [userData] is whatever the form handed over. *)
Inductive Call (UserData : Type) :=
| PostAuthRegister (userData : UserData)
| PostAuthLogin (userData : UserData)
| GetAuthMe.
Arguments PostAuthRegister {UserData} userData.
Arguments PostAuthLogin {UserData} userData.
Arguments GetAuthMe {UserData}.

Record Backend (Server UserData : Type) := {
  post_auth_register : option string → UserData → Server → Reply () * Server;
  post_auth_login : option string → UserData → Server → Reply LoginData.t * Server;
  get_auth_me : option string → Server → Reply User.t * Server
}.
Arguments post_auth_register {Server UserData} b authorization userData srv.
Arguments post_auth_login {Server UserData} b authorization userData srv.
Arguments get_auth_me {Server UserData} b authorization srv.

Definition component (Server UserData : Type) : Component :=
  {| Page.Server := Server; Page.State := State; Page.Update := Update;
     Page.Call := Call UserData; Page.apply_update := apply_update |}.

(** What [login] and [register] return: [{ success, error }]. *)
Record Answer := { success : bool; error : option string }.

Section Provider.
Context {Server UserData : Type} (backend : Backend Server UserData).
Local Abbreviation C := (component Server UserData).

Definition setUser (u : option User.t) : M C () := set_state (C:=C) (SetUser u).
Definition setLoading (b : bool) : M C () := set_state (C:=C) (SetLoading b).

(** [authAPI] *)
Definition authAPI_register (userData : UserData) : M C () :=
  api_request (C:=C) (PostAuthRegister userData)
    (λ a, post_auth_register backend a userData).
Definition authAPI_login (userData : UserData) : M C LoginData.t :=
  api_request (C:=C) (PostAuthLogin userData)
    (λ a, post_auth_login backend a userData).
Definition authAPI_getMe : M C User.t :=
  api_request (C:=C) GetAuthMe (λ a, get_auth_me backend a).

(** [error.response?.data?.detail || fallback] *)
Definition detail_or (fallback : string) (error : Exn) : string :=
  match response_detail error with
  | Some detail => if JS.truthy_string detail then detail else fallback
  | None => fallback
  end.

Definition checkAuthStatus : M C () :=
  λ w,
    let token := getToken w in
    ((if from_option JS.truthy_string false token then
        try_catch
          (response ← authAPI_getMe;
           setUser (Some response))
          (λ error,
             removeToken;;
             console_error "Auth check failed:" error)
      else ret ());;
     setLoading false) w.

Definition login (userData : UserData) : M C Answer :=
  try_catch
    (response ← authAPI_login userData;
     let access_token := LoginData.access_token response in
     let userInfo := LoginData.user response in
     setToken access_token;;
     setUser (Some userInfo);;
     toast_success "Login successful!";;
     ret {| success := true; error := None |})
    (λ error,
       let message := detail_or "Login failed" error in
       toast_error message;;
       ret {| success := false; error := Some message |}).

Definition register (userData : UserData) : M C Answer :=
  try_catch
    (authAPI_register userData;;
     toast_success "Registration successful! Please login.";;
     ret {| success := true; error := None |})
    (λ error,
       let message := detail_or "Registration failed" error in
       toast_error message;;
       ret {| success := false; error := Some message |}).

Definition logout : M C () :=
  removeToken;;
  setUser None;;
  toast_success "Logged out successfully".

End Provider.

End Auth.

(** ** frontend/src/pages/Chat.js: what runs when the page mounts *)

Module Loaders.
Import Page.
Local Open Scope page_scope.

(** One entry of the model list; the page reads its [id]. *)
Module Model.
Record t := { id : string }.
End Model.

(** [response.data] of [GET /models]; [models] can be missing. *)
Module ModelsData.
Record t := { models : option (list Model.t) }.
End ModelsData.

(** The hook variables [fetchModels] and [fetchSessions] write. *)
Record State := {
  models : list Model.t;
  sessions : list Session.t;
  modelsLoading : bool
}.

Inductive Update :=
| SetModels (l : list Model.t)
| SetSessions (l : list Session.t)
| SetModelsLoading (b : bool).

Definition apply_update (u : Update) (s : State) : State :=
  match u with
  | SetModels x =>
      {| models := x; sessions := sessions s; modelsLoading := modelsLoading s |}
  | SetSessions x =>
      {| models := models s; sessions := x; modelsLoading := modelsLoading s |}
  | SetModelsLoading x =>
      {| models := models s; sessions := sessions s; modelsLoading := x |}
  end.

Inductive Call := GetModels | GetChatSessions.

Record Backend (Server : Type) := {
  get_models : option string → Server → Reply ModelsData.t * Server;
  get_chat_sessions : option string → Server → Reply (list Session.t) * Server
}.
Arguments get_models {Server} b authorization srv.
Arguments get_chat_sessions {Server} b authorization srv.

Definition component (Server : Type) : Component :=
  {| Page.Server := Server; Page.State := State; Page.Update := Update;
     Page.Call := Call; Page.apply_update := apply_update |}.

Section Chat.
Context {Server : Type} (backend : Backend Server).
Local Abbreviation C := (component Server).

Definition setModels (l : list Model.t) : M C () := set_state (C:=C) (SetModels l).
Definition setSessions (l : list Session.t) : M C () := set_state (C:=C) (SetSessions l).
Definition setModelsLoading (b : bool) : M C () := set_state (C:=C) (SetModelsLoading b).

(** [chatAPI] *)
Definition chatAPI_getModels : M C ModelsData.t :=
  api_request (C:=C) GetModels (λ a, get_models backend a).
Definition chatAPI_getSessions : M C (list Session.t) :=
  api_request (C:=C) GetChatSessions (λ a, get_chat_sessions backend a).

Definition fetchModels : M C () :=
  try_finally
    (try_catch
       (response ← chatAPI_getModels;
        setModels (default [] (ModelsData.models response)))
       (λ error,
          console_error "Error fetching models:" error;;
          toast_error "Failed to fetch available models"))
    (setModelsLoading false).

Definition fetchSessions : M C () :=
  try_catch
    (response ← chatAPI_getSessions;
     setSessions response)
    (λ error,
       console_error "Error fetching sessions:" error).

End Chat.

End Loaders.

(** ** Fixed replies, to run the provider and the loaders *)

Module AuthDemo.
Import Page.

(** A backend that answers every request of a kind with the same reply. *)
Definition backend (registered : Reply ()) (logged_in : Reply Auth.LoginData.t)
    (me : Reply User.t) : Auth.Backend () (string * string) :=
  {| Auth.post_auth_register := λ _ _ srv, (registered, srv);
     Auth.post_auth_login := λ _ _ srv, (logged_in, srv);
     Auth.get_auth_me := λ _ srv, (me, srv) |}.

Definition world (token : option string) (u : option User.t)
    : World (Auth.component () (string * string)) :=
  Build_World (Auth.component () (string * string))
    () {| Auth.user := u; Auth.loading := true |}
    (from_option (λ t, {[ "token" := t ]}) ∅ token) "/".

Definition granted : Auth.LoginData.t :=
  {| Auth.LoginData.access_token := "jwt2"; Auth.LoginData.user := Scripted.alice |}.

Definition wrong_password : option HttpError.t :=
  Some {| HttpError.status := 401;
          HttpError.detail := Some "Incorrect username or password" |}.

Definition taken : option HttpError.t :=
  Some {| HttpError.status := 400; HttpError.detail := Some "Username already registered" |}.

End AuthDemo.

Module LoadersDemo.
Import Page.

Definition backend (models : Reply Loaders.ModelsData.t)
    (sessions : Reply (list Session.t)) : Loaders.Backend () :=
  {| Loaders.get_models := λ _ srv, (models, srv);
     Loaders.get_chat_sessions := λ _ srv, (sessions, srv) |}.

Definition world : World (Loaders.component ()) :=
  Build_World (Loaders.component ())
    () {| Loaders.models := []; Loaders.sessions := [Scripted.chat1];
          Loaders.modelsLoading := true |}
    {[ "token" := "jwt" ]} "/chat".

Definition unavailable : option HttpError.t :=
  Some {| HttpError.status := 503; HttpError.detail := None |}.

End LoadersDemo.

(** * Properties *)

(** ** String.prototype.trim *)

Lemma truthy_string_true (s : string) : JS.truthy_string s = true ↔ s ≠ "".
Proof.
  unfold JS.truthy_string. rewrite negb_true_iff, bool_decide_eq_false. done.
Qed.

Lemma truthy_string_false (s : string) : JS.truthy_string s = false ↔ s = "".
Proof.
  unfold JS.truthy_string. rewrite negb_false_iff, bool_decide_eq_true. done.
Qed.

Lemma truthy_number_true (n : Z) : JS.truthy_number n = true ↔ n ≠ 0.
Proof.
  unfold JS.truthy_number. rewrite negb_true_iff, bool_decide_eq_false. done.
Qed.

Example trim_spaces : JS.trim "  hey " = "hey".
Proof. reflexivity. Qed.

Example trim_inner :
  JS.trim (String (Ascii.ascii_of_nat 9) "a  b" +:+ String (Ascii.ascii_of_nat 10) "")
  = "a  b".
Proof. reflexivity. Qed.

Example trim_blank : JS.trim "   " = "".
Proof. reflexivity. Qed.

(** ** Concrete runs *)

(** A user with 1000 credits sends a message that costs 37 tokens: the balance
    shown becomes 963 and the new chat holds two messages. *)
Example send_37_tokens :
  let r := Scripted.screen Scripted.alice None "  hey " in
  let w := Scripted.world
             (Scripted.replies [Success (Scripted.answer (Some 37))]
                [Success Scripted.chat1]) r in
  let o := sendMessage Scripted.backend r w in
  user (state (after o)) = Some (User.with_credits Scripted.alice 963) ∧
  messages (state (after o)) =
    [ {| Message.role := "user"; Message.content := "hey" |};
      {| Message.role := "assistant"; Message.content := "42" |} ] ∧
  inputMessage (state (after o)) = "" ∧ loading (state (after o)) = false.
Proof. vm_compute. repeat split. Qed.

(** An administrator is never charged. *)
Example administrator_not_charged :
  let r := Scripted.screen Scripted.admin (Some Scripted.chat1) "again" in
  let w := Scripted.world (Scripted.replies [Success (Scripted.answer (Some 10000))] []) r in
  user (state (after (sendMessage Scripted.backend r w))) = Some Scripted.admin.
Proof. vm_compute. reflexivity. Qed.

(** With 0 credits nothing leaves the browser. *)
Example no_credits_no_request :
  let r := Scripted.screen Scripted.broke None "hey" in
  let w := Scripted.world
             (Scripted.replies [Success (Scripted.answer (Some 37))]
                [Success Scripted.chat1]) r in
  sendMessage Scripted.backend r w =
  {| result := Return (); after := w;
     trace := [ToastError "Insufficient credits. Please contact admin."] |}.
Proof. vm_compute. reflexivity. Qed.

(** A balance of 1 lets the send through, and the answer drives it below 0. *)
Example last_credit_goes_negative :
  let r := Scripted.screen (User.with_credits Scripted.alice 1) (Some Scripted.chat1) "again" in
  let w := Scripted.world (Scripted.replies [Success (Scripted.answer (Some 37))] []) r in
  User.credits <$> user (state (after (sendMessage Scripted.backend r w))) = Some (-36).
Proof. vm_compute. reflexivity. Qed.

(** Without a user ([user] is [null]) a completion that reports tokens runs
    into [user.credits]: the [TypeError] lands in the [catch] block, which
    takes the answer back. *)
Example no_user_type_error :
  let r := {| user := None; selectedModel := "mistralai/mistral-7b-instruct:free";
              sessions := [Scripted.chat1]; currentSession := Some Scripted.chat1;
              messages := []; inputMessage := "hey"; loading := false |} in
  let w := Scripted.world (Scripted.replies [Success (Scripted.answer (Some 37))] []) r in
  let o := sendMessage Scripted.backend r w in
  messages (state (after o)) = [] ∧
  ConsoleError "Error sending message:" TypeError ∈ trace o ∧
  ToastError "Failed to send message" ∈ trace o.
Proof. vm_compute. repeat split; repeat constructor. Qed.

(** A 401 on the way: the interceptor logs the user out and the handler
    still reports and rolls back. *)
Example session_expired :
  let r := Scripted.screen Scripted.alice (Some Scripted.chat1) "again" in
  let w := Scripted.world (Scripted.replies [Failure Scripted.expired] []) r in
  let o := sendMessage Scripted.backend r w in
  localStorage (after o) !! "token" = None ∧ location (after o) = "/login" ∧
  messages (state (after o)) = messages r ∧
  filter (λ e, is_toast_error e) (trace o) =
    [ ToastError "Session expired. Please login again.";
      ToastError "Could not validate credentials" ].
Proof. vm_compute. repeat split. Qed.

(** ** The state is what the trace says *)

Section Logged.
Context {Server : Type}.

Lemma replay_app t1 t2 s : replay (t1 ++ t2) s = replay t2 (replay t1 s).
Proof. apply foldl_app. Qed.

Lemma logged_ret {A} (a : A) : logged (Server:=Server) (ret a).
Proof. done. Qed.

Lemma logged_throw {A} error : logged (Server:=Server) (throw (A:=A) error).
Proof. done. Qed.

Lemma logged_emit e : (∀ u, e ≠ Updated u) → logged (Server:=Server) (emit e).
Proof. intros He w. destruct e; try done. by destruct (He u). Qed.

Lemma logged_set_state u : logged (Server:=Server) (set_state u).
Proof. done. Qed.

Lemma logged_set_localStorage f : logged (Server:=Server) (set_localStorage f).
Proof. done. Qed.

Lemma logged_set_location href : logged (Server:=Server) (set_location href).
Proof. done. Qed.

Lemma logged_transmit {A} a c (route : Server → Reply A * Server) :
  logged (transmit a c route).
Proof. done. Qed.

Lemma logged_bind {A B} (m : M Server A) (k : A → M Server B) :
  logged m → (∀ a, logged (k a)) → logged (bind m k).
Proof.
  intros Hm Hk w. unfold bind. specialize (Hm w).
  destruct (result (m w)) as [a|error]; simpl; [|done].
  by rewrite replay_app, <-Hm, <-Hk.
Qed.

Lemma logged_try_catch {A} (body : M Server A) handler :
  logged body → (∀ error, logged (handler error)) → logged (try_catch body handler).
Proof.
  intros Hb Hh w. unfold try_catch. specialize (Hb w).
  destruct (result (body w)) as [a|error]; simpl; [done|].
  by rewrite replay_app, <-Hb, <-Hh.
Qed.

Lemma logged_try_finally {A} (body : M Server A) fin :
  logged body → logged fin → logged (try_finally body fin).
Proof.
  intros Hb Hf w. unfold try_finally; simpl.
  by rewrite replay_app, <-Hb, <-Hf.
Qed.

Lemma logged_settle {A} c body (m : M Server A) : logged m → logged (settle c body m).
Proof.
  intros Hm w. unfold settle; simpl. rewrite replay_app, <-Hm.
  by destruct (result (m w)).
Qed.

Lemma logged_if {A} (b : bool) (m1 m2 : M Server A) :
  logged m1 → logged m2 → logged (if b then m1 else m2).
Proof. by destruct b. Qed.

End Logged.

Create HintDb logged.
#[export] Hint Resolve logged_ret logged_throw logged_set_state logged_set_localStorage
  logged_set_location logged_transmit logged_bind logged_try_catch logged_try_finally
  logged_settle logged_if : logged.
#[export] Hint Extern 1 (logged (emit _)) => (apply logged_emit; done) : logged.

Ltac case_status :=
  repeat match goal with
    | |- context [bool_decide ?P] => destruct (bool_decide P)
    end.

Section Steps.
Context {Server : Type}.
Implicit Types (w : World Server) (r : State).

(** ** Stepping through a handler *)

Lemma bind_unfold {A B} (m : M Server A) (k : A → M Server B) w :
  bind m k w =
  match result (m w) with
  | Return a => prepend (trace (m w)) (k a (after (m w)))
  | Throw error => {| result := Throw error; after := after (m w); trace := trace (m w) |}
  end.
Proof. reflexivity. Qed.

Lemma try_catch_unfold {A} (body : M Server A) handler w :
  try_catch body handler w =
  match result (body w) with
  | Return a => body w
  | Throw error => prepend (trace (body w)) (handler error (after (body w)))
  end.
Proof. reflexivity. Qed.

Lemma try_finally_unfold {A} (body : M Server A) fin w :
  try_finally body fin w =
  {| result := match result (fin (after (body w))) with
               | Return _ => result (body w)
               | Throw error => Throw error
               end;
     after := after (fin (after (body w)));
     trace := trace (body w) ++ trace (fin (after (body w))) |}.
Proof. reflexivity. Qed.

(** ** The axios instance *)



Lemma response_rejected_eq {A} error w :
  response_rejected (A:=A) error w =
  {| result := Throw error; after := rejection_world error w;
     trace := rejection_toasts error |}.
Proof.
  unfold response_rejected, rejection_world, rejection_toasts.
  by case_status.
Qed.

Lemma api_request_eq {A} c (body : A → Payload) route w :
  api_request c body route w =
  let authorization := request_interceptor w in
  let reply := route authorization (server w) in
  match reply.1 with
  | Success data =>
      {| result := Return data; after := with_server reply.2 w;
         trace := [Request authorization c; Fulfilled c (body data)] |}
  | Failure response =>
      {| result := Throw (AxiosError response);
         after := rejection_world (AxiosError response) (with_server reply.2 w);
         trace := Request authorization c
                  :: rejection_toasts (AxiosError response)
                  ++ [Rejected c (AxiosError response)] |}
  end.
Proof.
  unfold api_request, bind, transmit, settle; simpl.
  destruct (route (request_interceptor w) (server w)) as [[data|response] srv]; simpl.
  - reflexivity.
  - rewrite response_rejected_eq. reflexivity.
Qed.

Lemma rejection_toasts_toast error e :
  e ∈ rejection_toasts error → ∃ msg, e = ToastError msg.
Proof.
  unfold rejection_toasts.
  case_status; rewrite ?elem_of_cons, elem_of_nil; intuition eauto.
Qed.

Lemma replay_rejection_toasts error s : replay (rejection_toasts error) s = s.
Proof. unfold rejection_toasts. by case_status. Qed.

Lemma state_rejection_world error w : state (rejection_world error w) = state w.
Proof. unfold rejection_world. by case_status. Qed.

Lemma server_rejection_world error w : server (rejection_world error w) = server w.
Proof. unfold rejection_world. by case_status. Qed.

End Steps.

Ltac js_primitives :=
  unfold setUser, setSelectedModel, setSessions, setCurrentSession, setMessages,
    setInputMessage, setLoading, toast_error, toast_success, console_error,
    set_state, emit, ret, throw in *.

Ltac js_run :=
  repeat first
    [ rewrite bind_unfold | rewrite try_catch_unfold | rewrite try_finally_unfold
    | rewrite <-app_assoc
    | progress cbn [result after trace prepend fst snd app] ].

Ltac trace_mem H :=
  repeat match type of H with
    | _ ∈ _ ++ _ => apply elem_of_app in H as [H|H]
    | _ ∈ _ :: _ => apply elem_of_cons in H as [H|H]
    | _ ∈ [] => by apply elem_of_nil in H
    | _ ∈ rejection_toasts _ => apply rejection_toasts_toast in H as [? H]
    | @eq Event _ _ => first [discriminate H | progress simplify_eq]
    end.

Section Facts.
Context {Server : Type} (backend : Backend Server).
Implicit Types (w : World Server) (r : State).

Lemma logged_response_rejected {A} error :
  logged (response_rejected (Server:=Server) (A:=A) error).
Proof.
  unfold response_rejected, removeToken, toast_error.
  auto 10 with logged.
Qed.

Lemma logged_api_request {A} c body (route : option string → Server → Reply A * Server) :
  logged (api_request c body route).
Proof.
  intros w. unfold api_request.
  apply logged_bind; [auto with logged|].
  intros [data|response]; apply logged_settle;
    [apply logged_ret | apply logged_response_rejected].
Qed.

Lemma logged_createNewSession r : logged (createNewSession backend r).
Proof.
  unfold createNewSession, chatAPI_createSession, setSessions, setCurrentSession,
    setMessages, toast_success, toast_error, console_error.
  auto 10 using logged_api_request with logged.
Qed.

Lemma logged_sendMessage r : logged (sendMessage backend r).
Proof.
  unfold sendMessage, chatAPI_sendMessage, updateUserCredits, setUser, setMessages,
    setInputMessage, setLoading, toast_error, console_error.
  repeat match goal with
    | |- logged (match ?x with _ => _ end) => destruct x
    | |- logged (bind _ _) => apply logged_bind
    | |- logged (try_finally _ _) => apply logged_try_finally
    | |- logged (try_catch _ _) => apply logged_try_catch
    | |- logged (createNewSession _ _) => apply logged_createNewSession
    | |- logged (api_request _ _ _) => apply logged_api_request
    | |- ∀ _, _ => intros ?
    | |- _ => solve [auto with logged]
    end.
Qed.

(** ** The runs of the handlers *)

Lemma createNewSession_returns r w : result (createNewSession backend r w) = Return ().
Proof.
  unfold createNewSession, chatAPI_createSession. js_primitives.
  rewrite try_catch_unfold, bind_unfold, api_request_eq; cbn beta zeta.
  destruct (post_chat_sessions _ _ _ _) as [[s|response] srv]; by js_run.
Qed.

Lemma createNewSession_resolution r w :
  currentSession r = None → resolution r (trace (createNewSession backend r w)).
Proof.
  intros Hnone.
  unfold createNewSession, chatAPI_createSession. js_primitives.
  rewrite try_catch_unfold, bind_unfold, api_request_eq; cbn beta zeta.
  destruct (post_chat_sessions _ _ _ _) as [[s|response] srv]; js_run.
  - by apply resolution_created.
  - by apply resolution_failed.
Qed.

Lemma sendMessage_returns r w : result (sendMessage backend r w) = Return ().
Proof.
  unfold sendMessage.
  destruct (negb _); [done|]. destruct (_ && _); [done|].
  rewrite bind_unfold.
  assert (result (match currentSession r with
                  | Some _ => ret ()
                  | None => createNewSession backend r
                  end w) = Return ()) as ->.
  { destruct (currentSession r); [done | apply createNewSession_returns]. }
  unfold chatAPI_sendMessage, updateUserCredits. js_primitives. js_run.
  rewrite api_request_eq; cbn beta zeta.
  destruct (post_chat _ _ _ _) as [[response|failure] srv]; js_run; [|done].
  destruct (total_tokens response) as [tokens|]; js_run; [|done].
  destruct (_ && _); js_run; [|done].
  destruct (user r); by js_run.
Qed.

Lemma resolution_step r w :
  let o := match currentSession r with
           | Some _ => ret ()
           | None => createNewSession backend r
           end w in
  result o = Return () ∧ resolution r (trace o).
Proof.
  destruct (currentSession r) as [s|] eqn:Hcur; simpl.
  - split; [done | by eapply resolution_selected].
  - split; [apply createNewSession_returns | by apply createNewSession_resolution].
Qed.

Lemma sent_eq r t t' : sent r t' → t = t' → sent r t.
Proof. by intros ? ->. Qed.

Lemma sendMessage_sent r w : sent r (trace (sendMessage backend r w)).
Proof.
  unfold sendMessage.
  destruct (JS.truthy_string (JS.trim (inputMessage r))) eqn:Hinput; cbn [negb].
  2: { apply sent_blank. by apply truthy_string_false. }
  apply truthy_string_true in Hinput.
  destruct (not_admin r && credits_exhausted r) eqn:Hgate.
  { apply andb_true_iff in Hgate as [? ?]. by apply sent_denied. }
  rewrite bind_unfold.
  destruct (resolution_step r w) as [-> Hres]. cbn beta iota zeta in Hres.
  unfold chatAPI_sendMessage, updateUserCredits. js_primitives. js_run.
  rewrite api_request_eq; cbn beta zeta.
  match goal with |- context [request_interceptor ?w'] =>
    generalize (request_interceptor w'); intros authorization end.
  destruct (post_chat _ _ _ _) as [[response|failure] srv]; js_run.
  - assert (∀ t, settlement r response t →
      sent r (trace (match currentSession r with
                     | Some _ => λ w, {| result := Return (); after := w; trace := [] |}
                     | None => createNewSession backend r
                     end w)
              ++ [ Updated (SetMessages (messages r ++ [userMessage r]));
                   Updated (SetInputMessage "");
                   Updated (SetLoading true);
                   Request authorization (PostChat (chatData r)) ]
              ++ ([ Fulfilled (PostChat (chatData r)) (ChatBody response);
                    Updated (SetMessages
                            (messages r ++ [userMessage r; assistantMessage response])) ]
                  ++ t)
              ++ [ Updated (SetLoading false) ])) as Hsent.
    { intros t Ht. apply sent_passed; [done..|]. by apply completion_returned_. }
    destruct (total_tokens response) as [tokens|] eqn:Htokens; js_run.
    + destruct (JS.truthy_number tokens) eqn:Htruthy;
        [apply truthy_number_true in Htruthy; destruct (not_admin r) eqn:Hadmin|];
        cbn [andb]; js_run.
      * destruct (user r) as [u|] eqn:Hu; js_run.
        -- eapply sent_eq; [apply Hsent, (settlement_debited r response u tokens) |]; try done.
           unfold not_admin in Hadmin. rewrite Hu in Hadmin. simpl in Hadmin.
           by destruct (User.is_admin u).
        -- eapply sent_eq; [apply Hsent, (settlement_no_user r response tokens) |]; done.
      * eapply sent_eq; [apply Hsent, settlement_skipped; by left |]. done.
      * eapply sent_eq; [apply Hsent, settlement_skipped | done].
        right; right. rewrite Htokens. f_equal.
        unfold JS.truthy_number in Htruthy.
        by apply negb_false_iff, bool_decide_eq_true in Htruthy.
    + eapply sent_eq; [apply Hsent, settlement_skipped; by right; left |]. done.
  - eapply sent_eq.
    + apply (sent_passed r _ authorization _ Hinput Hgate Hres
               (completion_failed r (AxiosError failure))).
    + by rewrite <-?app_assoc.
Qed.

(** ** Reading the traces of [sendMessage] *)


Lemma resolution_no_completion r t c data :
  resolution r t → Fulfilled c data ∈ t → ∃ s, c = PostChatSessions (sessionData r)
    ∧ data = SessionBody s ∧ currentSession r = None ∧ ∃ authorization,
    t = [ Request authorization (PostChatSessions (sessionData r));
          Fulfilled (PostChatSessions (sessionData r)) (SessionBody s);
          Updated (SetSessions (s :: sessions r));
          Updated (SetCurrentSession (Some s));
          Updated (SetMessages []);
          ToastSuccess "New chat session created" ].
Proof.
  intros [s Hs|a s Hs|a error Hs] H; trace_mem H. eauto 10.
Qed.

Lemma resolution_rejected r t c error :
  resolution r t → Rejected c error ∈ t → c = PostChatSessions (sessionData r).
Proof.
  intros [s Hs|a s Hs|a error' Hs] H; by trace_mem H.
Qed.

Lemma resolution_no_user r t u : resolution r t → Updated (SetUser u) ∉ t.
Proof. intros [s Hs|a s Hs|a error' Hs] H; trace_mem H. Qed.

Lemma settlement_no_promise r response t c :
  settlement r response t →
  (∀ data, Fulfilled c data ∉ t) ∧ (∀ error, Rejected c error ∉ t).
Proof.
  intros [Hs|u tokens Hu Hadm Htok Hne|tokens Hu Htok Hne]; split; intros ? H; trace_mem H.
Qed.

Lemma sent_completed r t d response :
  sent r t → Fulfilled (PostChat d) (ChatBody response) ∈ t →
  ∃ t1 authorization ts,
    JS.trim (inputMessage r) ≠ "" ∧ not_admin r && credits_exhausted r = false ∧
    resolution r t1 ∧ settlement r response ts ∧ d = chatData r ∧
    t = t1
        ++ [ Updated (SetMessages (messages r ++ [userMessage r]));
             Updated (SetInputMessage "");
             Updated (SetLoading true);
             Request authorization (PostChat (chatData r));
             Fulfilled (PostChat (chatData r)) (ChatBody response);
             Updated (SetMessages (messages r ++ [userMessage r; assistantMessage response])) ]
        ++ ts ++ [ Updated (SetLoading false) ].
Proof.
  intros [Hblank|Hin Hadm Hcred|t1 a t2 Hin Hgate Hres Hcomp] H; trace_mem H.
  - apply (resolution_no_completion _ _ _ _ Hres) in H as (s & [=] & _).
  - destruct Hcomp as [response' ts Hset|error]; trace_mem H.
    + exists t1, a, ts. repeat split; try done.
    + by apply (settlement_no_promise _ _ _ _ Hset) in H.
Qed.

Lemma sent_failed r t d error :
  sent r t → Rejected (PostChat d) error ∈ t →
  ∃ t1 authorization,
    JS.trim (inputMessage r) ≠ "" ∧ not_admin r && credits_exhausted r = false ∧
    resolution r t1 ∧ d = chatData r ∧
    t = t1
        ++ [ Updated (SetMessages (messages r ++ [userMessage r]));
             Updated (SetInputMessage "");
             Updated (SetLoading true);
             Request authorization (PostChat (chatData r)) ]
        ++ rejection_toasts error
        ++ [ Rejected (PostChat (chatData r)) error;
             ConsoleError "Error sending message:" error;
             ToastError (errorMessage error);
             Updated (SetMessages (messages r));
             Updated (SetLoading false) ].
Proof.
  intros [Hblank|Hin Hadm Hcred|t1 a t2 Hin Hgate Hres Hcomp] H; trace_mem H.
  - by apply (resolution_rejected _ _ _ _ Hres) in H.
  - destruct Hcomp as [response' ts Hset|error']; trace_mem H.
    + by apply (settlement_no_promise _ _ _ _ Hset) in H.
    + exists t1, a. repeat split; try done.
      by rewrite <-!app_assoc.
Qed.

(** The updates of session resolution leave [user] alone; the later ones
    leave [sessions] and [currentSession] alone. *)
Lemma replay_resolution_user r t s : resolution r t → user (replay t s) = user s.
Proof.
  intros [x Hx|a x Hx|a error Hx]; [done..|].
  cbn [replay foldl]. fold (replay (rejection_toasts error ++
    [ Rejected (PostChatSessions (sessionData r)) error;
      ConsoleError "Error creating session:" error;
      ToastError "Failed to create new session" ]) s).
  by rewrite replay_app, replay_rejection_toasts.
Qed.


End Facts.

(** ** The credit gate *)

(** C1, as amended: a send from a user who is not an administrator and whose
    balance is at most 0 stops at the credit check when the typed message is
    not blank, with the insufficient-credits error, and stops silently before
    the credit check when it is blank; either way no request is sent and the
    whole world (server, component state, storage, location) is unchanged. *)
Theorem insufficient_credits_denied {Server} (backend : Backend Server)
    (r : State) (w : World Server) (u : User.t) :
  user r = Some u → User.is_admin u = false → User.credits u ≤ 0 →
  let o := sendMessage backend r w in
  result o = Return () ∧ after o = w ∧
  trace o = if JS.truthy_string (JS.trim (inputMessage r))
            then [ToastError "Insufficient credits. Please contact admin."]
            else [].
Proof.
  intros Hu Hadm Hcred. unfold sendMessage, not_admin, credits_exhausted.
  rewrite Hu; simpl. rewrite Hadm, bool_decide_eq_true_2 by done.
  by destruct (JS.truthy_string _).
Qed.

Lemma insufficient_credits_denied_witness :
  let r := Scripted.screen Scripted.broke None "hi" in
  let w := Scripted.world (Scripted.replies [] []) r in
  let o := sendMessage Scripted.backend r w in
  result o = Return () ∧ after o = w ∧
  trace o = [ToastError "Insufficient credits. Please contact admin."].
Proof.
  apply (insufficient_credits_denied Scripted.backend
           (Scripted.screen Scripted.broke None "hi") _ Scripted.broke);
    [reflexivity | reflexivity | simpl; lia].
Defined.

(** C1, as stated, fails on a blank message: the handler returns at its
    first line, before the credit check, and shows no error. *)
Lemma blank_send_shows_no_error :
  let r := Scripted.screen Scripted.broke None "   " in
  let w := Scripted.world (Scripted.replies [] []) r in
  user r = Some Scripted.broke ∧
  User.is_admin Scripted.broke = false ∧ User.credits Scripted.broke = 0 ∧
  (ToastError "Insufficient credits. Please contact admin."
     ∉ trace (sendMessage Scripted.backend r w)) ∧
  trace (sendMessage Scripted.backend r w) = [].
Proof. repeat split. intros H. vm_compute in H. by apply elem_of_nil in H. Qed.

(** ** Successful sends *)



(** C5: after a successful send the message list is the list before it with
    the user turn and then the assistant turn appended: two more messages,
    the earlier ones kept in place. *)
Theorem successful_send_appends_exchange {Server} (backend : Backend Server)
    (w : World Server) (u : User.t) (d : ChatData.t) (response : ChatResponse.t) :
  user (state w) = Some u →
  Fulfilled (PostChat d) (ChatBody response) ∈ trace (sendMessage backend (state w) w) →
  let before := messages (state w) in
  let after_ := messages (state (after (sendMessage backend (state w) w))) in
  after_ = before ++ exchange (inputMessage (state w)) response ∧
  length after_ = (length before + 2)%nat ∧
  take (length before) after_ = before.
Proof.
  intros Hu H.
  destruct (sent_completed _ _ _ _ (sendMessage_sent backend _ w) H)
    as (t1 & a & ts & _ & _ & Hres & Hset & _ & Ht).
  assert (messages (state (after (sendMessage backend (state w) w)))
          = messages (state w) ++ exchange (inputMessage (state w)) response) as Heq.
  { rewrite (logged_sendMessage backend (state w) w), Ht, !replay_app.
    destruct Hset as [Hs|u' tokens Hu' Hadm Htok Hne|tokens Hu' Htok Hne];
      [done | done | congruence]. }
  cbn zeta. rewrite Heq. split; [done|]. split.
  - by rewrite length_app.
  - by rewrite take_app_length.
Qed.

Lemma successful_send_appends_exchange_witness :
  let r := Scripted.screen Scripted.alice (Some Scripted.chat1) "again" in
  let w := Scripted.world (Scripted.replies [Success (Scripted.answer (Some 37))] []) r in
  let after_ := messages (state (after (sendMessage Scripted.backend (state w) w))) in
  after_ = [Scripted.hello; Scripted.hi] ++ exchange "again" (Scripted.answer (Some 37)) ∧
  length after_ = 4%nat ∧
  take 2 after_ = [Scripted.hello; Scripted.hi].
Proof.
  apply (successful_send_appends_exchange Scripted.backend
           (Scripted.world (Scripted.replies [Success (Scripted.answer (Some 37))] [])
              (Scripted.screen Scripted.alice (Some Scripted.chat1) "again"))
           Scripted.alice
           (chatData (Scripted.screen Scripted.alice (Some Scripted.chat1) "again"))
           (Scripted.answer (Some 37))).
  - reflexivity.
  - vm_compute. repeat constructor.
Defined.

(** C9: when the completion reports no [total_tokens] (no [usage], no
    [total_tokens], or [0]), the send leaves [user] as it was, also for a user
    who is not an administrator: [updateUserCredits] is not called at all. *)
Theorem no_usage_no_settlement {Server} (backend : Backend Server)
    (r : State) (w : World Server) (d : ChatData.t) (response : ChatResponse.t) :
  Fulfilled (PostChat d) (ChatBody response) ∈ trace (sendMessage backend r w) →
  total_tokens response = None ∨ total_tokens response = Some 0 →
  user (state (after (sendMessage backend r w))) = user (state w) ∧
  ∀ e, e ∈ trace (sendMessage backend r w) → ¬ debit e.
Proof.
  intros H Hnone.
  destruct (sent_completed _ _ _ _ (sendMessage_sent backend _ w) H)
    as (t1 & a & ts & _ & _ & Hres & Hset & _ & Ht).
  assert (ts = []) as ->.
  { destruct Hset as [Hs|u' tokens Hu' Hadm Htok Hne|tokens Hu' Htok Hne]; [done|..];
      destruct Hnone; congruence. }
  split.
  - rewrite (logged_sendMessage backend r w), Ht, !replay_app.
    cbn [replay foldl apply_update user]. by apply (replay_resolution_user _ _ _ Hres).
  - rewrite Ht. intros e He [u' ->]. trace_mem He.
    by apply (resolution_no_user _ _ _ Hres) in He.
Qed.

Lemma no_usage_no_settlement_witness :
  let r := Scripted.screen Scripted.alice (Some Scripted.chat1) "again" in
  let w := Scripted.world (Scripted.replies [Success (Scripted.answer None)] []) r in
  user (state (after (sendMessage Scripted.backend r w))) = Some Scripted.alice ∧
  ∀ e, e ∈ trace (sendMessage Scripted.backend r w) → ¬ debit e.
Proof.
  apply (no_usage_no_settlement Scripted.backend
           (Scripted.screen Scripted.alice (Some Scripted.chat1) "again")
           (Scripted.world (Scripted.replies [Success (Scripted.answer None)] [])
              (Scripted.screen Scripted.alice (Some Scripted.chat1) "again"))
           (chatData (Scripted.screen Scripted.alice (Some Scripted.chat1) "again"))
           (Scripted.answer None)).
  - vm_compute. repeat constructor.
  - left. reflexivity.
Defined.

(** ** Failed sends *)



(** C10: when the completion request fails on a send that had to create its
    session, the new session stays: it is the head of the session list and
    the current session, exactly as the backend returned it, while the
    message list and [user] are what they were before the send. *)
Theorem failed_send_keeps_new_session {Server} (backend : Backend Server)
    (w : World Server) (sd : SessionData.t) (s : Session.t)
    (d : ChatData.t) (error : Exn) :
  Fulfilled (PostChatSessions sd) (SessionBody s) ∈ trace (sendMessage backend (state w) w) →
  Rejected (PostChat d) error ∈ trace (sendMessage backend (state w) w) →
  let o := sendMessage backend (state w) w in
  currentSession (state w) = None ∧
  sessions (state (after o)) = s :: sessions (state w) ∧
  currentSession (state (after o)) = Some s ∧
  messages (state (after o)) = messages (state w) ∧
  user (state (after o)) = user (state w).
Proof.
  intros Hcreated H.
  destruct (sent_failed _ _ _ _ (sendMessage_sent backend _ w) H)
    as (t1 & a & _ & _ & Hres & _ & Ht).
  rewrite Ht in Hcreated. trace_mem Hcreated.
  apply (resolution_no_completion _ _ _ _ Hres) in Hcreated
    as (s' & _ & [= <-] & Hnone & a' & ->).
  cbn zeta. rewrite (logged_sendMessage backend (state w) w), Ht, !replay_app, replay_rejection_toasts.
  done.
Qed.

(** Over the Session Store of the spec, the session a create-session request
    returns has no messages, on the client ([message_count]) and in the store. *)
Lemma created_session_empty
    (authenticate : option string → option string)
    (fresh : gmap string SessionStore.ChatSession → string)
    (chat : option string → ChatData.t → gmap string SessionStore.ChatSession →
            Reply ChatResponse.t * gmap string SessionStore.ChatSession)
    (authorization : option string) (sessionData : SessionData.t)
    (store store' : gmap string SessionStore.ChatSession) (s : Session.t) :
  post_chat_sessions (SessionStore.backend authenticate fresh chat)
    authorization sessionData store = (Success s, store') →
  Session.message_count s = 0 ∧
  Session.model s = SessionData.model sessionData ∧
  SessionStore.messages <$> store' !! Session.id s = Some [].
Proof.
  cbn [post_chat_sessions SessionStore.backend].
  destruct (authenticate authorization) as [ownerId|]; [|done].
  unfold SessionStore.createSession. intros [= <- <-].
  repeat split. cbn [SessionStore.summary Session.id]. by rewrite lookup_insert_eq.
Qed.

Lemma failed_send_keeps_new_session_witness :
  let r := Scripted.screen Scripted.alice None "hey" in
  let w := Scripted.world
             (Scripted.replies [Failure Scripted.rate_limited] [Success Scripted.chat1]) r in
  let o := sendMessage Scripted.backend (state w) w in
  currentSession (state w) = None ∧
  sessions (state (after o)) = [Scripted.chat1] ∧
  currentSession (state (after o)) = Some Scripted.chat1 ∧
  messages (state (after o)) = [] ∧
  user (state (after o)) = Some Scripted.alice.
Proof.
  apply (failed_send_keeps_new_session Scripted.backend
           (Scripted.world
              (Scripted.replies [Failure Scripted.rate_limited] [Success Scripted.chat1])
              (Scripted.screen Scripted.alice None "hey"))
           (sessionData (Scripted.screen Scripted.alice None "hey")) Scripted.chat1
           (chatData (Scripted.screen Scripted.alice None "hey"))
           (AxiosError Scripted.rate_limited));
    vm_compute; repeat constructor.
Defined.

(** ** Order of the steps of a send *)

Lemma precedes_nil P Q : precedes P Q [].
Proof. intros [|x pre] e post Heq; discriminate Heq. Qed.

Lemma precedes_cons_skip P Q e t : ¬ Q e → precedes P Q t → precedes P Q (e :: t).
Proof.
  intros Hn Ht [|x pre] e' post Heq HQ; simplify_eq/=; [done|].
  destruct (Ht pre e' post eq_refl HQ) as (e'' & Hin & HP).
  exists e''. split; [by apply list_elem_of_further | done].
Qed.

Lemma precedes_cons_here P Q e t : P e → ¬ Q e → precedes P Q (e :: t).
Proof.
  intros HP Hn [|x pre] e' post Heq HQ; simplify_eq/=; [done|].
  exists x. split; [apply list_elem_of_here | done].
Qed.

Lemma precedes_app_skip P Q t1 t2 :
  (∀ e, e ∈ t1 → ¬ Q e) → precedes P Q t2 → precedes P Q (t1 ++ t2).
Proof.
  induction t1 as [|x t1 IH]; intros Hn Ht; [done|].
  apply precedes_cons_skip; [apply Hn, list_elem_of_here|].
  apply IH; [|done]. intros e He. by apply Hn, list_elem_of_further.
Qed.

Lemma precedes_none P Q t : (∀ e, e ∈ t → ¬ Q e) → precedes P Q t.
Proof.
  intros Hn. rewrite <-(app_nil_r t). apply precedes_app_skip; [done | apply precedes_nil].
Qed.

(** The event of the goal is in the trace of the goal. *)
Ltac find_event :=
  cbn [app];
  repeat first
    [ apply list_elem_of_here
    | apply list_elem_of_further
    | apply elem_of_app; right; cbn [app] ].

(** An event is not a debit, an appended exchange, a completion or a
    request of the kind in the goal. *)
Ltac refute_event :=
  let H := fresh "H" in
  intros H;
  first
    [ destruct H as [? H]; discriminate H
    | destruct H as (? & ? & H);
      first
        [ discriminate H
        | injection H as H; apply (f_equal length) in H;
          rewrite ?length_app in H; simpl in H; lia ] ].

Lemma resolution_quiet r t e :
  resolution r t → e ∈ t →
  ¬ debit e ∧ ¬ exchange_appended r e ∧ ¬ completion_returned e ∧ ¬ completion_requested e.
Proof.
  intros [x Hx|a x Hx|a error Hx] He; trace_mem He; repeat split; refute_event.
Qed.

(** C4: in every run of a send, the credit settlement comes only after the
    update that appends the user turn and the assistant turn, and that update
    comes only after the completion request was fulfilled; when the
    completion request is rejected there is neither a settlement nor such an
    append, and [user] and the message list end as they were. *)
Theorem settlement_after_append_after_completion {Server} (backend : Backend Server)
    (w : World Server) :
  let r := state w in
  let o := sendMessage backend r w in
  precedes (exchange_appended r) debit (trace o) ∧
  precedes completion_returned (exchange_appended r) (trace o) ∧
  ∀ d error,
    Rejected (PostChat d) error ∈ trace o →
    (∀ e, e ∈ trace o → ¬ debit e ∧ ¬ exchange_appended r e) ∧
    user (state (after o)) = user r ∧
    messages (state (after o)) = messages r.
Proof.
  cbn zeta. split; [|split].
  - destruct (sendMessage_sent backend (state w) w)
      as [Hblank|Hin Hadm Hcred|t1 a t2 Hin Hgate Hres Hcomp].
    + apply precedes_nil.
    + apply precedes_none. intros e He. trace_mem He. refute_event.
    + apply precedes_app_skip; [intros e He; by apply (resolution_quiet _ _ _ Hres)|].
      cbn [app]. do 4 (apply precedes_cons_skip; [refute_event|]).
      destruct Hcomp as [response ts Hset|error]; cbn [app].
      * apply precedes_cons_skip; [refute_event|].
        apply precedes_cons_here; [by eexists _, _ | refute_event].
      * apply precedes_none. intros e He. trace_mem He; refute_event.
  - destruct (sendMessage_sent backend (state w) w)
      as [Hblank|Hin Hadm Hcred|t1 a t2 Hin Hgate Hres Hcomp].
    + apply precedes_nil.
    + apply precedes_none. intros e He. trace_mem He. refute_event.
    + apply precedes_app_skip; [intros e He; by apply (resolution_quiet _ _ _ Hres)|].
      cbn [app]. do 4 (apply precedes_cons_skip; [refute_event|]).
      destruct Hcomp as [response ts Hset|error]; cbn [app].
      * apply precedes_cons_here; [by eexists _, _ | refute_event].
      * apply precedes_none. intros e He. trace_mem He; refute_event.
  - intros d error H.
    destruct (sent_failed _ _ _ _ (sendMessage_sent backend _ w) H)
      as (t1 & a & _ & _ & Hres & _ & Ht).
    split; [|split].
    + rewrite Ht. intros e He. trace_mem He; try (split; refute_event).
      by destruct (resolution_quiet _ _ _ Hres He) as (? & ? & _).
    + rewrite (logged_sendMessage backend (state w) w), Ht, !replay_app,
        replay_rejection_toasts.
      cbn [replay foldl apply_update user]. by apply (replay_resolution_user _ _ _ Hres).
    + by rewrite (logged_sendMessage backend (state w) w), Ht, !replay_app,
        replay_rejection_toasts.
Qed.

Lemma settlement_after_append_after_completion_witness :
  let r := Scripted.screen Scripted.alice (Some Scripted.chat1) "again" in
  let w := Scripted.world (Scripted.replies [Failure Scripted.rate_limited] []) r in
  let o := sendMessage Scripted.backend r w in
  (∀ e, e ∈ trace o → ¬ debit e ∧ ¬ exchange_appended r e) ∧
  user (state (after o)) = Some Scripted.alice ∧
  messages (state (after o)) = [Scripted.hello; Scripted.hi].
Proof.
  apply (settlement_after_append_after_completion Scripted.backend
           (Scripted.world (Scripted.replies [Failure Scripted.rate_limited] [])
              (Scripted.screen Scripted.alice (Some Scripted.chat1) "again")))
    with (d := chatData (Scripted.screen Scripted.alice (Some Scripted.chat1) "again"))
         (error := AxiosError Scripted.rate_limited).
  vm_compute. repeat constructor.
Defined.

(** In the run that costs 37 tokens the settlement is there, and it is the
    last update but one. *)
Example settlement_comes_last :
  let r := Scripted.screen Scripted.alice (Some Scripted.chat1) "again" in
  let w := Scripted.world (Scripted.replies [Success (Scripted.answer (Some 37))] []) r in
  drop 5 (trace (sendMessage Scripted.backend r w)) =
    [ Updated (SetMessages ([Scripted.hello; Scripted.hi]
                            ++ exchange "again" (Scripted.answer (Some 37))));
      Updated (SetUser (Some (User.with_credits Scripted.alice 963)));
      Updated (SetLoading false) ].
Proof. vm_compute. reflexivity. Qed.

(** ** Session resolution *)

Lemma completion_sessions r t authorization s :
  completion r t →
  let t' := [ Updated (SetMessages (messages r ++ [userMessage r]));
              Updated (SetInputMessage "");
              Updated (SetLoading true);
              Request authorization (PostChat (chatData r)) ]
            ++ t ++ [ Updated (SetLoading false) ] in
  sessions (replay t' s) = sessions s ∧ currentSession (replay t' s) = currentSession s.
Proof.
  intros [response ts [Hs|u tokens Hu Hadm Htok Hne|tokens Hu Htok Hne]|error];
    cbn zeta; rewrite ?replay_app, ?replay_rejection_toasts; done.
Qed.

Lemma completion_no_session_request r t authorization sd :
  completion r t → Request authorization (PostChatSessions sd) ∉ t.
Proof.
  intros [response ts [Hs|u tokens Hu Hadm Htok Hne|tokens Hu Htok Hne]|error] H;
    trace_mem H.
Qed.

(** C6, as amended: a send that passes both checks (message not blank,
    credits available) and is started with no session selected first sends a
    create-session request for the title 'New Chat' and the selected model,
    and sends the completion request after it; if the create-session request is fulfilled, the session
    it returned is put at the head of the session list, made the current
    session and the message list is emptied, all before the completion
    request, and it is still the head of the list and the current session
    when the send ends.  Started with a session selected, the send makes no
    create-session request and leaves the session list and the current
    session as they were. *)
Theorem session_resolved_before_completion {Server} (backend : Backend Server)
    (w : World Server) :
  let r := state w in
  let o := sendMessage backend r w in
  JS.trim (inputMessage r) ≠ "" →
  not_admin r && credits_exhausted r = false →
  match currentSession r with
  | None =>
      (∃ authorization t authorization',
         trace o = Request authorization (PostChatSessions (sessionData r)) :: t ∧
         Request authorization' (PostChat (chatData r)) ∈ t) ∧
      (∀ sd s,
         Fulfilled (PostChatSessions sd) (SessionBody s) ∈ trace o →
         (∃ authorization t authorization',
            trace o =
              [ Request authorization (PostChatSessions (sessionData r));
                Fulfilled (PostChatSessions (sessionData r)) (SessionBody s);
                Updated (SetSessions (s :: sessions r));
                Updated (SetCurrentSession (Some s));
                Updated (SetMessages []);
                ToastSuccess "New chat session created" ] ++ t ∧
            Request authorization' (PostChat (chatData r)) ∈ t) ∧
         sessions (state (after o)) = s :: sessions r ∧
         currentSession (state (after o)) = Some s)
  | Some s =>
      (∀ authorization sd, Request authorization (PostChatSessions sd) ∉ trace o) ∧
      sessions (state (after o)) = sessions r ∧
      currentSession (state (after o)) = Some s
  end.
Proof.
  cbn zeta. intros Hinput Hpassed.
  pose proof (logged_sendMessage backend (state w) w) as Hlog.
  destruct (sendMessage_sent backend (state w) w)
    as [Hblank|Hin Hadm Hcred|t1 a t2 Hin Hgate Hres Hcomp];
    [done | by rewrite Hadm, Hcred in Hpassed |].
  rewrite Hlog, replay_app.
  destruct (completion_sessions _ t2 a (replay t1 (state w)) Hcomp)
    as [Hsessions Hcurrent].
  destruct Hres as [s Hs|a' s Hs|a' error Hs]; rewrite Hs.
  - split; [|by rewrite Hsessions, Hcurrent].
    intros a' sd H. trace_mem H.
    by apply (completion_no_session_request _ _ _ _ Hcomp) in H.
  - split.
    + eexists a', _, a. split; [reflexivity|]. find_event.
    + intros sd s' H. trace_mem H.
      * split; [|by rewrite Hsessions, Hcurrent].
        eexists a', _, a. split; [reflexivity|]. find_event.
      * destruct Hcomp as [response ts Hset|error]; trace_mem H.
        by apply (settlement_no_promise _ _ _ _ Hset) in H.
  - split.
    + eexists a', _, a. split; [reflexivity|]. find_event.
    + intros sd s' H. trace_mem H.
      destruct Hcomp as [response ts Hset|error']; trace_mem H.
      by apply (settlement_no_promise _ _ _ _ Hset) in H.
Qed.

Lemma session_resolved_before_completion_witness :
  let r := Scripted.screen Scripted.alice None "  hey " in
  let w := Scripted.world
             (Scripted.replies [Success (Scripted.answer (Some 37))]
                [Success Scripted.chat1]) r in
  let o := sendMessage Scripted.backend (state w) w in
  sessions (state (after o)) = [Scripted.chat1] ∧
  currentSession (state (after o)) = Some Scripted.chat1.
Proof.
  pose proof (session_resolved_before_completion Scripted.backend
                (Scripted.world
                   (Scripted.replies [Success (Scripted.answer (Some 37))]
                      [Success Scripted.chat1])
                   (Scripted.screen Scripted.alice None "  hey "))) as H.
  cbn zeta in H.
  destruct H as [_ H]; [vm_compute; discriminate | reflexivity |].
  destruct (H (sessionData (Scripted.screen Scripted.alice None "  hey ")) Scripted.chat1)
    as (_ & Hsessions & Hcurrent); [vm_compute; repeat constructor|].
  split; [exact Hsessions | exact Hcurrent].
Defined.

(** C6, as stated, fails when the create-session request fails:
    [createNewSession] reports the failure itself and [sendMessage] goes on,
    so the completion is requested and answered although no session was
    created. *)
Lemma completion_without_session :
  let r := Scripted.screen Scripted.alice None "hey" in
  let w := Scripted.world
             (Scripted.replies [Success (Scripted.answer (Some 37))]
                [Failure Scripted.rate_limited]) r in
  let o := sendMessage Scripted.backend (state w) w in
  currentSession (state w) = None ∧
  Rejected (PostChatSessions (sessionData r)) (AxiosError Scripted.rate_limited) ∈ trace o ∧
  Fulfilled (PostChat (chatData r)) (ChatBody (Scripted.answer (Some 37))) ∈ trace o ∧
  (∀ sd s, Fulfilled (PostChatSessions sd) (SessionBody s) ∉ trace o) ∧
  sessions (state (after o)) = [] ∧
  currentSession (state (after o)) = None.
Proof.
  cbn zeta. split; [reflexivity|]. split; [vm_compute; repeat constructor|].
  split; [vm_compute; repeat constructor|]. split; [|split; reflexivity].
  intros sd s H. vm_compute in H.
  repeat (apply elem_of_cons in H as [H|H]; [discriminate H|]).
  by apply elem_of_nil in H.
Qed.

(** ** Failed requests *)

(** C7, as amended, for the API layer ([api_request]: the axios instance
    of [api.js] with its two interceptors): a request that fails reaches the
    code that awaited it as a rejection with the very error axios produced;
    the request is sent once and never again, the promise is never turned
    into a fulfilled one, and the API layer leaves the component state
    alone.  Besides its error toasts the interceptor acts locally in one
    case: on a 401 it removes the stored token and points the browser at
    the login page; on any other failure the API layer leaves the storage
    and the location as they were.  What the handler that awaited the
    request does with the rejection is not part of the statement. *)
Theorem failed_request_rejects {Server A} (c : Call) (body : A → Payload)
    (route : option string → Server → Reply A * Server)
    (w : World Server) (response : option HttpError.t) (srv : Server) :
  route (request_interceptor w) (server w) = (Failure response, srv) →
  let error := AxiosError response in
  let o := api_request c body route w in
  result o = Throw error ∧
  (∃ toasts,
     trace o = Request (request_interceptor w) c :: toasts ++ [Rejected c error] ∧
     ∀ e, e ∈ toasts → ∃ msg, e = ToastError msg) ∧
  server (after o) = srv ∧
  state (after o) = state w ∧
  (response_status error = Some 401 →
   localStorage (after o) = delete "token" (localStorage w) ∧
   location (after o) = "/login") ∧
  (response_status error ≠ Some 401 →
   localStorage (after o) = localStorage w ∧ location (after o) = location w).
Proof.
  intros Hroute. cbn zeta. rewrite api_request_eq. cbn zeta. rewrite Hroute.
  cbn [fst snd result after trace]. split; [done|]. split; [|split; [|split; [|split]]].
  - exists (rejection_toasts (AxiosError response)). split; [done|].
    intros e. apply rejection_toasts_toast.
  - by rewrite server_rejection_world.
  - by rewrite state_rejection_world.
  - intros Hstatus. unfold rejection_world. by rewrite bool_decide_eq_true_2.
  - intros Hstatus. unfold rejection_world. by rewrite bool_decide_eq_false_2.
Qed.

Lemma failed_request_rejects_witness :
  let r := Scripted.screen Scripted.alice (Some Scripted.chat1) "again" in
  let w := Scripted.world (Scripted.replies [Failure Scripted.rate_limited] []) r in
  let error := AxiosError Scripted.rate_limited in
  let o := api_request (PostChat (chatData r)) ChatBody
             (λ a, post_chat Scripted.backend a (chatData r)) w in
  result o = Throw error ∧
  (∃ toasts,
     trace o = Request (Some "Bearer jwt") (PostChat (chatData r))
               :: toasts ++ [Rejected (PostChat (chatData r)) error] ∧
     ∀ e, e ∈ toasts → ∃ msg, e = ToastError msg) ∧
  server (after o) = Scripted.replies [] [] ∧
  state (after o) = r ∧
  (response_status error = Some 401 →
   localStorage (after o) = delete "token" {[ "token" := "jwt" ]} ∧
   location (after o) = "/login") ∧
  (response_status error ≠ Some 401 →
   localStorage (after o) = {[ "token" := "jwt" ]} ∧ location (after o) = "/chat").
Proof.
  exact (failed_request_rejects
           (PostChat (chatData (Scripted.screen Scripted.alice (Some Scripted.chat1) "again")))
           ChatBody
           (λ a, post_chat Scripted.backend a
                   (chatData (Scripted.screen Scripted.alice (Some Scripted.chat1) "again")))
           (Scripted.world (Scripted.replies [Failure Scripted.rate_limited] [])
              (Scripted.screen Scripted.alice (Some Scripted.chat1) "again"))
           Scripted.rate_limited (Scripted.replies [] []) eq_refl).
Defined.

(** C7, as stated, fails on a 401: before it rejects, the interceptor logs
    the user out, a local action that is not the rollback of the message
    list. *)
Lemma unauthorized_response_logs_out :
  let r := Scripted.screen Scripted.alice (Some Scripted.chat1) "again" in
  let w := Scripted.world (Scripted.replies [Failure Scripted.expired] []) r in
  let o := api_request (PostChat (chatData r)) ChatBody
             (λ a, post_chat Scripted.backend a (chatData r)) w in
  result o = Throw (AxiosError Scripted.expired) ∧
  localStorage w !! "token" = Some "jwt" ∧ localStorage (after o) !! "token" = None ∧
  location w = "/chat" ∧ location (after o) = "/login" ∧
  state (after o) = state w.
Proof. vm_compute. repeat split. Qed.

(** ** Deleting a session *)

(** C8: over the Session Store of the spec, after the owner deleted a
    session, fetching it fails with NotFound ([selectSession] reports it and
    changes nothing), and deleting it again fails with NotFound too:
    [deleteSession] catches the rejection, reports it and leaves the world,
    so also the session list, as the first delete left it. *)
Theorem delete_twice_not_found
    (authenticate : option string → option string)
    (fresh : gmap string SessionStore.ChatSession → string)
    (chat : option string → ChatData.t → gmap string SessionStore.ChatSession →
            Reply ChatResponse.t * gmap string SessionStore.ChatSession)
    (w : World (gmap string SessionStore.ChatSession))
    (ownerId sessionId : string) (stored : SessionStore.ChatSession)
    (session : Session.t) :
  authenticate (request_interceptor w) = Some ownerId →
  server w !! sessionId = Some stored →
  SessionStore.owner stored = ownerId →
  Session.id session = sessionId →
  let backend := SessionStore.backend authenticate fresh chat in
  let not_found := AxiosError (SessionStore.http_error SessionStore.NotFound) in
  let o1 := deleteSession backend (state w) sessionId w in
  let w1 := after o1 in
  let fetch := selectSession backend (state w1) session w1 in
  let o2 := deleteSession backend (state w1) sessionId w1 in
  Fulfilled (DeleteChatSession sessionId) NoBody ∈ trace o1 ∧
  sessions (state w1) = filter (λ s, Session.id s ≠ sessionId) (sessions (state w)) ∧
  SessionStore.getSession sessionId ownerId (server w1) = inl SessionStore.NotFound ∧
  Rejected (GetChatSession sessionId) not_found ∈ trace fetch ∧
  after fetch = w1 ∧
  SessionStore.deleteSession sessionId ownerId (server w1) = inl SessionStore.NotFound ∧
  result o2 = Return () ∧
  trace o2 = [ Request (request_interceptor w) (DeleteChatSession sessionId);
               Rejected (DeleteChatSession sessionId) not_found;
               ConsoleError "Error deleting session:" not_found;
               ToastError "Failed to delete session" ] ∧
  after o2 = w1 ∧
  sessions (state (after o2)) = sessions (state w1).
Proof.
  intros Hauth Hstored Howner Hid. cbn zeta.
  assert (server (after (deleteSession (SessionStore.backend authenticate fresh chat)
                           (state w) sessionId w)) = delete sessionId (server w)
          ∧ localStorage (after (deleteSession (SessionStore.backend authenticate fresh chat)
                                   (state w) sessionId w)) = localStorage w
          ∧ sessions (state (after (deleteSession
                                      (SessionStore.backend authenticate fresh chat)
                                      (state w) sessionId w)))
            = filter (λ s, Session.id s ≠ sessionId) (sessions (state w))
          ∧ Fulfilled (DeleteChatSession sessionId) NoBody
              ∈ trace (deleteSession (SessionStore.backend authenticate fresh chat)
                         (state w) sessionId w))
    as (Hserver & Hstorage & Hsessions & Hfulfilled).
  { unfold deleteSession, chatAPI_deleteSession. js_primitives.
    rewrite try_catch_unfold, bind_unfold, api_request_eq; cbn beta zeta.
    cbn [delete_chat_session SessionStore.backend]. rewrite Hauth.
    unfold SessionStore.deleteSession. rewrite Hstored, bool_decide_eq_true_2 by done.
    js_run. destruct (bool_decide _); js_run; repeat split; try done; find_event. }
  split; [done|]. split; [done|].
  revert Hserver Hstorage. clear Hsessions Hfulfilled.
  generalize (after (deleteSession (SessionStore.backend authenticate fresh chat)
                       (state w) sessionId w)).
  intros w1 Hserver Hstorage.
  assert (request_interceptor w1 = request_interceptor w) as Hinterceptor
    by (unfold request_interceptor, getToken; by rewrite Hstorage).
  assert (server w1 !! sessionId = None) as Hgone
    by (rewrite Hserver; apply lookup_delete_eq).
  split; [unfold SessionStore.getSession; by rewrite Hgone|].
  assert (rejection_toasts (AxiosError (SessionStore.http_error SessionStore.NotFound)) = []
          ∧ ∀ w' : World (gmap string SessionStore.ChatSession),
              rejection_world
                (AxiosError (SessionStore.http_error SessionStore.NotFound)) w' = w')
    as [Htoasts Hworld] by done.
  assert (with_server (server w1) w1 = w1) as Hsame by (by destruct w1).
  unfold selectSession, deleteSession, chatAPI_getSession, chatAPI_deleteSession.
  js_primitives.
  rewrite !try_catch_unfold, !bind_unfold, !api_request_eq; cbn beta zeta.
  cbn [get_chat_session delete_chat_session SessionStore.backend].
  rewrite Hinterceptor, Hauth, Hid.
  unfold SessionStore.getSession, SessionStore.deleteSession. rewrite Hgone.
  js_run. rewrite Htoasts, !Hworld, !Hsame. cbn [app].
  repeat split; try done. find_event.
Qed.

Lemma delete_twice_not_found_witness :
  let w := StoreDemo.world in
  let not_found := AxiosError (SessionStore.http_error SessionStore.NotFound) in
  let o1 := deleteSession StoreDemo.backend (state w) "s1" w in
  let w1 := after o1 in
  let fetch := selectSession StoreDemo.backend (state w1) StoreDemo.listed w1 in
  let o2 := deleteSession StoreDemo.backend (state w1) "s1" w1 in
  Fulfilled (DeleteChatSession "s1") NoBody ∈ trace o1 ∧
  sessions (state w1) = filter (λ s, Session.id s ≠ "s1") (sessions (state w)) ∧
  SessionStore.getSession "s1" "alice" (server w1) = inl SessionStore.NotFound ∧
  Rejected (GetChatSession "s1") not_found ∈ trace fetch ∧
  after fetch = w1 ∧
  SessionStore.deleteSession "s1" "alice" (server w1) = inl SessionStore.NotFound ∧
  result o2 = Return () ∧
  trace o2 = [ Request (request_interceptor w) (DeleteChatSession "s1");
               Rejected (DeleteChatSession "s1") not_found;
               ConsoleError "Error deleting session:" not_found;
               ToastError "Failed to delete session" ] ∧
  after o2 = w1 ∧
  sessions (state (after o2)) = sessions (state w1).
Proof.
  apply (delete_twice_not_found StoreDemo.authenticate StoreDemo.fresh StoreDemo.chat
           StoreDemo.world "alice" "s1" StoreDemo.stored StoreDemo.listed);
    vm_compute; reflexivity.
Defined.

Example delete_twice_session_list :
  sessions (state (after (deleteSession StoreDemo.backend (state StoreDemo.world) "s1"
                            StoreDemo.world))) = [].
Proof. vm_compute. reflexivity. Qed.

(** * Further properties *)

(** ** Model names ([formatModelName], [getModelProvider]) *)

Section ModelNames.
Import Stdlib.Strings.Ascii.
Import ModelName.

Lemma split_nonempty sep s : split sep s ≠ [].
Proof. destruct s as [|c s]; simpl; [done|]. case_bool_decide; [done|]. by destruct (split sep s). Qed.

Lemma split_app sep p r :
  split sep (p +:+ String sep r) = split sep p ++ split sep r.
Proof.
  induction p as [|c p IH]; simpl.
  - by rewrite bool_decide_eq_true_2.
  - rewrite IH. case_bool_decide; [done|].
    pose proof (split_nonempty sep p). by destruct (split sep p).
Qed.

Lemma split_no_sep sep s :
  sep ∉ String.list_ascii_of_string s → split sep s = [s].
Proof.
  induction s as [|c s IH]; simpl; [done|].
  intros Hnot. rewrite not_elem_of_cons in Hnot. destruct Hnot as [Hne Hnot].
  rewrite bool_decide_eq_false_2 by done. by rewrite IH.
Qed.

Lemma split_parts sep s part :
  part ∈ split sep s → sep ∉ String.list_ascii_of_string part.
Proof.
  revert part. induction s as [|c s IH]; simpl; intros part.
  - rewrite list_elem_of_singleton. intros ->. apply not_elem_of_nil.
  - case_bool_decide as Hc.
    + rewrite elem_of_cons. intros [-> | Hin]; [apply not_elem_of_nil | by apply IH].
    + destruct (split sep s) as [|part' parts] eqn:Hsplit.
      * rewrite list_elem_of_singleton. intros ->. simpl.
        rewrite not_elem_of_cons. split; [done | apply not_elem_of_nil].
      * rewrite elem_of_cons. intros [-> | Hin].
        -- simpl. rewrite not_elem_of_cons. split; [done|].
           apply IH, list_elem_of_here.
        -- by apply IH, list_elem_of_further.
Qed.

Lemma list_ascii_of_string_app s1 s2 :
  String.list_ascii_of_string (s1 +:+ s2) = String.list_ascii_of_string s1 ++ String.list_ascii_of_string s2.
Proof. induction s1 as [|c s1 IH]; simpl; [done | by rewrite IH]. Qed.

Lemma replace_all_chars c by_ s x :
  x ∈ String.list_ascii_of_string (replace_all c by_ s) →
  x ∈ String.list_ascii_of_string by_ ∨ (x ∈ String.list_ascii_of_string s ∧ x ≠ c).
Proof.
  induction s as [|c' s IH]; simpl; [by intros ?%elem_of_nil|].
  rewrite list_ascii_of_string_app, elem_of_app, elem_of_cons.
  intros [Hhere | Hrest].
  - case_bool_decide as Hc; [by left|]. simpl in Hhere.
    apply list_elem_of_singleton in Hhere as ->. right. split; [by left | done].
  - destruct (IH Hrest) as [? | [? ?]]; [by left | right; split; [by right | done]].
Qed.

(** X1: [formatModelName] never throws, and the name it shows contains
    neither a slash nor a colon. *)
Theorem formatModelName_clean (modelId : string) :
  ∃ name, formatModelName modelId = Return name ∧
          ("/"%char ∉ String.list_ascii_of_string name) ∧
          (":"%char ∉ String.list_ascii_of_string name).
Proof.
  unfold formatModelName.
  destruct (last (split "/" modelId)) as [modelName|] eqn:Hlast.
  2: { apply last_None in Hlast. by destruct (split_nonempty "/" modelId). }
  eexists. split; [done|].
  assert ("/"%char ∉ String.list_ascii_of_string modelName) as Hslash.
  { apply (split_parts _ modelId). apply list_elem_of_lookup.
    rewrite last_lookup in Hlast. eauto. }
  split; intros Hin; apply replace_all_chars in Hin as [Hin | [Hin Hne]];
    try (by vm_compute in Hin; repeat (apply elem_of_cons in Hin as [Hin|Hin]; [done|]);
         apply elem_of_nil in Hin); [|done].
  apply replace_all_chars in Hin as [Hin | [Hin _]]; [|done].
  vm_compute in Hin. repeat (apply elem_of_cons in Hin as [Hin|Hin]; [done|]).
  by apply elem_of_nil in Hin.
Qed.

(** X2: [formatModelName] looks only at what follows the last slash: a
    provider path in front of a model id does not change the name shown. *)
Theorem formatModelName_last_segment (prefix rest : string) :
  formatModelName (prefix +:+ String "/" rest) = formatModelName rest.
Proof.
  unfold formatModelName. rewrite split_app, last_app.
  destruct (last (split "/" rest)) eqn:Hlast; [done|].
  apply last_None in Hlast. by destruct (split_nonempty "/" rest).
Qed.

Example formatModelName_default_model :
  formatModelName "mistralai/mistral-7b-instruct:free" = Return "mistral 7b instruct - free".
Proof. reflexivity. Qed.

Lemma providers_truthy provider name :
  providers !! provider = Some name → JS.truthy_string name = true.
Proof.
  unfold providers. intros Hin%elem_of_list_to_map_2.
  repeat (apply elem_of_cons in Hin as [[= -> ->]|Hin]; [by vm_compute|]).
  by apply elem_of_nil in Hin.
Qed.

Lemma object_prototype_not_own provider :
  provider ∈ object_prototype → providers !! provider = None.
Proof.
  unfold object_prototype. intros Hin.
  repeat (apply elem_of_cons in Hin as [->|Hin]; [by vm_compute|]).
  by apply elem_of_nil in Hin.
Qed.

(** X3: [getModelProvider] looks only at what precedes the first slash.  For
    one of the six providers of its table it shows the display name; for any
    other prefix it shows the prefix itself, unless the prefix is the name of
    a member of [Object.prototype], in which case the lookup finds that
    member and the result is not a string at all. *)
Theorem getModelProvider_prefix (provider rest : string) :
  "/"%char ∉ String.list_ascii_of_string provider →
  getModelProvider (provider +:+ String "/" rest) = getModelProvider provider ∧
  (∀ name, providers !! provider = Some name → getModelProvider provider = Text name) ∧
  (providers !! provider = None → provider ∉ object_prototype →
   getModelProvider provider = Text provider) ∧
  (provider ∈ object_prototype → getModelProvider provider = Inherited provider).
Proof.
  intros Hslash. unfold getModelProvider.
  rewrite split_app, (split_no_sep _ provider Hslash). cbn [app head].
  split; [done|]. split; [|split].
  - intros name Hname. by rewrite Hname, (providers_truthy _ _ Hname).
  - intros -> Hnot. by rewrite bool_decide_eq_false_2.
  - intros Hin. by rewrite (object_prototype_not_own _ Hin), bool_decide_eq_true_2.
Qed.

Lemma getModelProvider_prefix_witness :
  getModelProvider ("cohere" +:+ String "/" "command-r") = getModelProvider "cohere" ∧
  (∀ name, providers !! "cohere" = Some name → getModelProvider "cohere" = Text name) ∧
  (providers !! "cohere" = None → "cohere" ∉ object_prototype →
   getModelProvider "cohere" = Text "cohere") ∧
  ("cohere" ∈ object_prototype → getModelProvider "cohere" = Inherited "cohere").
Proof.
  apply (getModelProvider_prefix "cohere" "command-r").
  vm_compute. intros Hin.
  repeat (apply elem_of_cons in Hin as [Hin|Hin]; [discriminate Hin|]).
  by apply elem_of_nil in Hin.
Defined.

Example getModelProvider_known :
  getModelProvider "meta-llama/llama-3-8b" = Text "Meta" ∧
  getModelProvider "cohere/command-r" = Text "cohere" ∧
  getModelProvider "toString/x" = Inherited "toString".
Proof. vm_compute. done. Qed.

End ModelNames.

(** ** Sessions ([deleteSession], [selectSession], [createNewSession]) *)

(** X4: when the DELETE is answered with success, [deleteSession] takes out
    of the session list every entry with that id and no other, keeps the rest
    in their order, and reports success; nothing else of the list changes. *)
Theorem deleteSession_removes {Server} (backend : Backend Server)
    (w : World Server) (sessionId : string) (srv : Server) :
  delete_chat_session backend (request_interceptor w) sessionId (server w)
    = (Success (), srv) →
  let o := deleteSession backend (state w) sessionId w in
  result o = Return () ∧
  ToastSuccess "Session deleted" ∈ trace o ∧
  (∀ s, s ∈ sessions (state (after o)) ↔
        s ∈ sessions (state w) ∧ Session.id s ≠ sessionId) ∧
  sessions (state (after o)) `sublist_of` sessions (state w) ∧
  user (state (after o)) = user (state w) ∧
  selectedModel (state (after o)) = selectedModel (state w).
Proof.
  intros Hroute. cbn zeta.
  unfold deleteSession, chatAPI_deleteSession. js_primitives.
  rewrite try_catch_unfold, bind_unfold, api_request_eq; cbn beta zeta.
  rewrite Hroute. js_run.
  assert (∀ l : list Session.t,
            (∀ s, s ∈ filter (λ s, Session.id s ≠ sessionId) l ↔
                  s ∈ l ∧ Session.id s ≠ sessionId)
            ∧ filter (λ s, Session.id s ≠ sessionId) l `sublist_of` l) as Hfilter.
  { intros l. split; [|apply sublist_filter].
    intros s. rewrite list_elem_of_filter. tauto. }
  destruct (Hfilter (sessions (state w))) as [Hmem Hsub].
  destruct (bool_decide _); js_run;
    (split; [done|]); (split; [find_event|]); (split; [exact Hmem|]);
    (split; [exact Hsub|]); done.
Qed.

Lemma deleteSession_removes_witness :
  let w := StoreDemo.world in
  let o := deleteSession StoreDemo.backend (state w) "s1" w in
  result o = Return () ∧
  ToastSuccess "Session deleted" ∈ trace o ∧
  (∀ s, s ∈ sessions (state (after o)) ↔
        s ∈ sessions (state w) ∧ Session.id s ≠ "s1") ∧
  sessions (state (after o)) `sublist_of` sessions (state w) ∧
  user (state (after o)) = user (state w) ∧
  selectedModel (state (after o)) = selectedModel (state w).
Proof.
  apply (deleteSession_removes StoreDemo.backend StoreDemo.world "s1"
           (delete "s1" (server StoreDemo.world))).
  vm_compute. reflexivity.
Defined.

(** X5: a successful delete of the session on screen closes it (no current
    session, empty message list); a successful delete of any other session
    leaves the current session and the messages shown as they are. *)
Theorem deleteSession_current {Server} (backend : Backend Server)
    (w : World Server) (sessionId : string) (srv : Server) :
  delete_chat_session backend (request_interceptor w) sessionId (server w)
    = (Success (), srv) →
  let o := deleteSession backend (state w) sessionId w in
  (Session.id <$> currentSession (state w) = Some sessionId →
   currentSession (state (after o)) = None ∧ messages (state (after o)) = []) ∧
  (Session.id <$> currentSession (state w) ≠ Some sessionId →
   currentSession (state (after o)) = currentSession (state w) ∧
   messages (state (after o)) = messages (state w)).
Proof.
  intros Hroute. cbn zeta.
  unfold deleteSession, chatAPI_deleteSession. js_primitives.
  rewrite try_catch_unfold, bind_unfold, api_request_eq; cbn beta zeta.
  rewrite Hroute. js_run.
  case_bool_decide as Hcur; js_run; split; intros Hcur'; done.
Qed.

Lemma deleteSession_current_witness :
  let w := StoreDemo.world in
  let o := deleteSession StoreDemo.backend (state w) "s1" w in
  (Session.id <$> currentSession (state w) = Some "s1" →
   currentSession (state (after o)) = None ∧ messages (state (after o)) = []) ∧
  (Session.id <$> currentSession (state w) ≠ Some "s1" →
   currentSession (state (after o)) = currentSession (state w) ∧
   messages (state (after o)) = messages (state w)).
Proof.
  apply (deleteSession_current StoreDemo.backend StoreDemo.world "s1"
           (delete "s1" (server StoreDemo.world))).
  vm_compute. reflexivity.
Defined.

(** X6: when the DELETE fails, [deleteSession] does not throw, logs the
    error to the console, then reports 'Failed to delete session', reports
    no success, and leaves the whole component state (session list, current
    session, messages) untouched. *)
Theorem deleteSession_rejected {Server} (backend : Backend Server)
    (w : World Server) (sessionId : string)
    (response : option HttpError.t) (srv : Server) :
  delete_chat_session backend (request_interceptor w) sessionId (server w)
    = (Failure response, srv) →
  let o := deleteSession backend (state w) sessionId w in
  result o = Return () ∧
  state (after o) = state w ∧
  trace o = Request (request_interceptor w) (DeleteChatSession sessionId)
            :: rejection_toasts (AxiosError response)
            ++ [ Rejected (DeleteChatSession sessionId) (AxiosError response);
                 ConsoleError "Error deleting session:" (AxiosError response);
                 ToastError "Failed to delete session" ] ∧
  ConsoleError "Error deleting session:" (AxiosError response) ∈ trace o ∧
  ToastError "Failed to delete session" ∈ trace o ∧
  (∀ msg, ToastSuccess msg ∉ trace o).
Proof.
  intros Hroute. cbn zeta.
  unfold deleteSession, chatAPI_deleteSession. js_primitives.
  rewrite try_catch_unfold, bind_unfold, api_request_eq; cbn beta zeta.
  rewrite Hroute. js_run. rewrite state_rejection_world.
  repeat split; try done; [find_event|find_event|].
  intros msg H. trace_mem H.
Qed.

Lemma deleteSession_rejected_witness :
  let w := StoreDemo.world in
  let o := deleteSession StoreDemo.backend (state w) "s7" w in
  let failure := AxiosError (SessionStore.http_error SessionStore.NotFound) in
  result o = Return () ∧
  state (after o) = state w ∧
  trace o = Request (request_interceptor w) (DeleteChatSession "s7")
            :: rejection_toasts failure
            ++ [ Rejected (DeleteChatSession "s7") failure;
                 ConsoleError "Error deleting session:" failure;
                 ToastError "Failed to delete session" ] ∧
  ConsoleError "Error deleting session:" failure ∈ trace o ∧
  ToastError "Failed to delete session" ∈ trace o ∧
  (∀ msg, ToastSuccess msg ∉ trace o).
Proof.
  apply (deleteSession_rejected StoreDemo.backend StoreDemo.world "s7"
           (SessionStore.http_error SessionStore.NotFound) (server StoreDemo.world)).
  vm_compute. reflexivity.
Defined.

(** X7: when the session is fetched, [selectSession] makes it the current
    session, shows the messages the backend sent (none when the reply has no
    [messages]), switches the selected model to the session's model, and does
    not touch the session list or the user. *)
Theorem selectSession_loads {Server} (backend : Backend Server)
    (w : World Server) (session : Session.t) (detail : SessionDetail.t) (srv : Server) :
  get_chat_session backend (request_interceptor w) (Session.id session) (server w)
    = (Success detail, srv) →
  let o := selectSession backend (state w) session w in
  result o = Return () ∧
  currentSession (state (after o)) = Some session ∧
  messages (state (after o)) = default [] (SessionDetail.messages detail) ∧
  selectedModel (state (after o)) = SessionDetail.model detail ∧
  sessions (state (after o)) = sessions (state w) ∧
  user (state (after o)) = user (state w) ∧
  (∀ e, e ∈ trace o → is_toast_error e = false).
Proof.
  intros Hroute. cbn zeta.
  unfold selectSession, chatAPI_getSession. js_primitives.
  rewrite try_catch_unfold, bind_unfold, api_request_eq; cbn beta zeta.
  rewrite Hroute. js_run. repeat split; try done.
  intros e H. by trace_mem H.
Qed.

Lemma selectSession_loads_witness :
  let w := StoreDemo.world in
  let o := selectSession StoreDemo.backend (state w) StoreDemo.listed w in
  result o = Return () ∧
  currentSession (state (after o)) = Some StoreDemo.listed ∧
  messages (state (after o)) = [Scripted.hello; Scripted.hi] ∧
  selectedModel (state (after o)) = "mistralai/mistral-7b-instruct:free" ∧
  sessions (state (after o)) = sessions (state w) ∧
  user (state (after o)) = user (state w) ∧
  (∀ e, e ∈ trace o → is_toast_error e = false).
Proof.
  apply (selectSession_loads StoreDemo.backend StoreDemo.world StoreDemo.listed
           {| SessionDetail.messages := Some [Scripted.hello; Scripted.hi];
              SessionDetail.model := "mistralai/mistral-7b-instruct:free" |}
           (server StoreDemo.world)).
  vm_compute. reflexivity.
Defined.

(** X8: when the fetch fails, [selectSession] does not throw, logs the
    error to the console, then reports 'Failed to load session', and keeps
    the screen as it was: the session that was clicked does not become
    current and the messages stay. *)
Theorem selectSession_rejected {Server} (backend : Backend Server)
    (w : World Server) (session : Session.t)
    (response : option HttpError.t) (srv : Server) :
  get_chat_session backend (request_interceptor w) (Session.id session) (server w)
    = (Failure response, srv) →
  let o := selectSession backend (state w) session w in
  result o = Return () ∧
  state (after o) = state w ∧
  trace o = Request (request_interceptor w) (GetChatSession (Session.id session))
            :: rejection_toasts (AxiosError response)
            ++ [ Rejected (GetChatSession (Session.id session)) (AxiosError response);
                 ConsoleError "Error loading session:" (AxiosError response);
                 ToastError "Failed to load session" ] ∧
  ConsoleError "Error loading session:" (AxiosError response) ∈ trace o ∧
  ToastError "Failed to load session" ∈ trace o.
Proof.
  intros Hroute. cbn zeta.
  unfold selectSession, chatAPI_getSession. js_primitives.
  rewrite try_catch_unfold, bind_unfold, api_request_eq; cbn beta zeta.
  rewrite Hroute. js_run. rewrite state_rejection_world.
  repeat split; try done; find_event.
Qed.

Lemma selectSession_rejected_witness :
  let w := StoreDemo.world in
  let ghost := SessionStore.summary "s7" StoreDemo.stored in
  let o := selectSession StoreDemo.backend (state w) ghost w in
  let failure := AxiosError (SessionStore.http_error SessionStore.NotFound) in
  result o = Return () ∧
  state (after o) = state w ∧
  trace o = Request (request_interceptor w) (GetChatSession (Session.id ghost))
            :: rejection_toasts failure
            ++ [ Rejected (GetChatSession (Session.id ghost)) failure;
                 ConsoleError "Error loading session:" failure;
                 ToastError "Failed to load session" ] ∧
  ConsoleError "Error loading session:" failure ∈ trace o ∧
  ToastError "Failed to load session" ∈ trace o.
Proof.
  apply (selectSession_rejected StoreDemo.backend StoreDemo.world
           (SessionStore.summary "s7" StoreDemo.stored)
           (SessionStore.http_error SessionStore.NotFound) (server StoreDemo.world)).
  vm_compute. reflexivity.
Defined.

(** X9: [createNewSession] never throws.  When the request is answered with
    a session, that session is put in front of the session list of the
    render, becomes the current session and the message list is emptied, with
    a success toast; when the request fails, the component state is untouched
    and 'Failed to create new session' is shown.  The request asks for the
    title 'New Chat' and the selected model. *)
Theorem createNewSession_outcome {Server} (backend : Backend Server)
    (w : World Server) :
  let r := state w in
  let o := createNewSession backend r w in
  result o = Return () ∧
  (∃ t, trace o = Request (request_interceptor w) (PostChatSessions (sessionData r)) :: t) ∧
  match (post_chat_sessions backend (request_interceptor w) (sessionData r) (server w)).1 with
  | Success s =>
      sessions (state (after o)) = s :: sessions r ∧
      currentSession (state (after o)) = Some s ∧
      messages (state (after o)) = [] ∧
      user (state (after o)) = user r ∧
      ToastSuccess "New chat session created" ∈ trace o
  | Failure _ =>
      state (after o) = r ∧
      ToastError "Failed to create new session" ∈ trace o
  end.
Proof.
  cbn zeta. unfold createNewSession, chatAPI_createSession. js_primitives.
  rewrite try_catch_unfold, bind_unfold, api_request_eq; cbn beta zeta.
  unfold sessionData.
  destruct (post_chat_sessions _ _ _ _) as [[s|response] srv]; js_run.
  - repeat split; try done; [by eexists | find_event].
  - rewrite state_rejection_world. repeat split; try done; [by eexists | find_event].
Qed.

(** ** What [trim] leaves of the typed message *)

Lemma append_String c (s t : string) : String c s +:+ t = String c (s +:+ t).
Proof. reflexivity. Qed.

Lemma append_empty (t : string) : "" +:+ t = t.
Proof. reflexivity. Qed.

Lemma trimStart_white (s : string) :
  Forall (λ c, JS.is_white_space c = true) (String.list_ascii_of_string s) →
  JS.trimStart s = "".
Proof.
  induction s as [|c s IH]; simpl; [done|].
  intros [Hc Hs]%Forall_cons. rewrite Hc. by apply IH.
Qed.

Lemma trimStart_split (s : string) :
  ∃ pre, s = pre +:+ JS.trimStart s ∧
         Forall (λ c, JS.is_white_space c = true) (String.list_ascii_of_string pre) ∧
         (∀ c, head (String.list_ascii_of_string (JS.trimStart s)) = Some c →
               JS.is_white_space c = false).
Proof.
  induction s as [|c s (pre & Heq & Hpre & Hhead)]; simpl.
  - exists "". by repeat split.
  - destruct (JS.is_white_space c) eqn:Hc.
    + exists (String c pre). rewrite append_String, <-Heq. simpl.
      repeat split; [|done]. by apply Forall_cons.
    + exists "". repeat split; [done|]. simpl. by intros ? [= <-].
Qed.

Lemma trimEnd_split (s : string) :
  ∃ post, s = JS.trimEnd s +:+ post ∧
          Forall (λ c, JS.is_white_space c = true) (String.list_ascii_of_string post) ∧
          (∀ c, last (String.list_ascii_of_string (JS.trimEnd s)) = Some c →
                JS.is_white_space c = false) ∧
          (∀ c, head (String.list_ascii_of_string s) = Some c →
                JS.is_white_space c = false →
                head (String.list_ascii_of_string (JS.trimEnd s)) = Some c).
Proof.
  induction s as [|c s (post & Heq & Hpost & Hlast & _)]; simpl.
  - exists "". by repeat split.
  - destruct (JS.trimEnd s) as [|c' t] eqn:Ht.
    + destruct (JS.is_white_space c) eqn:Hc.
      * exists (String c post). rewrite append_empty in *. subst s. simpl.
        repeat split; [by apply Forall_cons | done | ].
        intros ? [= <-]. congruence.
      * exists post. rewrite append_String, <-Heq. simpl. repeat split; try done;
          by intros ? [= <-].
    + exists post. rewrite append_String, <-Heq. simpl. repeat split; try done;
        intros x; rewrite last_cons;
        (destruct (last (c' :: String.list_ascii_of_string t)) eqn:Hl; [|done]);
        intros [= <-]; by apply Hlast.
Qed.

Lemma trim_split (s : string) :
  ∃ pre post,
    s = pre +:+ JS.trim s +:+ post ∧
    Forall (λ c, JS.is_white_space c = true) (String.list_ascii_of_string pre) ∧
    Forall (λ c, JS.is_white_space c = true) (String.list_ascii_of_string post) ∧
    (∀ c, head (String.list_ascii_of_string (JS.trim s)) = Some c →
          JS.is_white_space c = false) ∧
    (∀ c, last (String.list_ascii_of_string (JS.trim s)) = Some c →
          JS.is_white_space c = false).
Proof.
  unfold JS.trim.
  destruct (trimStart_split s) as (pre & Hpre_eq & Hpre & Hhead).
  destruct (trimEnd_split (JS.trimStart s)) as (post & Hpost_eq & Hpost & Hlast & Hkeep).
  exists pre, post. split; [by rewrite <-Hpost_eq|]. repeat split; try done.
  intros c Hc.
  destruct (String.list_ascii_of_string (JS.trimStart s)) as [|c0 l] eqn:Hl.
  - destruct (JS.trimStart s); [done | discriminate Hl].
  - pose proof (Hhead c0 eq_refl) as Hc0.
    rewrite (Hkeep c0 eq_refl Hc0) in Hc. by injection Hc as <-.
Qed.

Lemma trim_blank_iff (s : string) :
  JS.trim s = "" ↔
  Forall (λ c, JS.is_white_space c = true) (String.list_ascii_of_string s).
Proof.
  split.
  - intros Hblank. destruct (trim_split s) as (pre & post & Heq & Hpre & Hpost & _).
    rewrite Hblank, append_empty in Heq. rewrite Heq.
    clear Heq. induction pre as [|c pre IH]; [done|].
    rewrite append_String. simpl.
    apply Forall_cons in Hpre as [? ?]. apply Forall_cons. auto.
  - intros Hwhite. unfold JS.trim. by rewrite (trimStart_white s Hwhite).
Qed.

(** ** [trim] on 16-bit code units *)

(** On the code units below 256 the white space of the model is the white
    space of ECMAScript. *)
Lemma is_white_space_code_unit (c : Ascii.ascii) :
  JS16.is_white_space (Ascii.N_of_ascii c) = JS.is_white_space c.
Proof. by destruct c as [[] [] [] [] [] [] [] []]; vm_compute. Qed.

Lemma code_units_String c s :
  JS16.code_units (String c s) = Ascii.N_of_ascii c :: JS16.code_units s.
Proof. reflexivity. Qed.

Lemma trimStart_code_units (s : string) :
  JS16.trimStart (JS16.code_units s) = JS16.code_units (JS.trimStart s).
Proof.
  induction s as [|c s IH]; [done|].
  rewrite code_units_String. cbn [JS16.trimStart JS.trimStart].
  rewrite is_white_space_code_unit. by destruct (JS.is_white_space c).
Qed.

Lemma trimEnd_code_units (s : string) :
  JS16.trimEnd (JS16.code_units s) = JS16.code_units (JS.trimEnd s).
Proof.
  induction s as [|c s IH]; [done|].
  rewrite code_units_String. cbn [JS16.trimEnd JS.trimEnd].
  rewrite IH, is_white_space_code_unit.
  destruct (JS.trimEnd s) as [|c' t]; [by destruct (JS.is_white_space c)|done].
Qed.

(** On the strings of the model, [JS.trim] is [String.prototype.trim]. *)
Lemma trim_code_units (s : string) :
  JS16.trim (JS16.code_units s) = JS16.code_units (JS.trim s).
Proof.
  unfold JS16.trim, JS.trim. by rewrite trimStart_code_units, trimEnd_code_units.
Qed.

Example trim_ideographic_space :
  JS16.trim [12288; 104; 105; 8203; 65279; 10]%N = [104; 105; 8203]%N.
Proof. reflexivity. Qed.

Example not_white_space :
  JS16.is_white_space <$> [133; 6158; 8203; 8288]%N = [false; false; false; false].
Proof. reflexivity. Qed.

Lemma white_code_units (s : string) :
  Forall (λ u, JS16.is_white_space u = true) (JS16.code_units s) ↔
  Forall (λ c, JS.is_white_space c = true) (String.list_ascii_of_string s).
Proof.
  unfold JS16.code_units. rewrite Forall_fmap.
  apply Forall_proper; [|done]. intros c. simpl.
  by rewrite is_white_space_code_unit.
Qed.

Lemma trim_blank_code_units (s : string) :
  JS.trim s = "" ↔ Forall (λ u, JS16.is_white_space u = true) (JS16.code_units s).
Proof. by rewrite white_code_units, trim_blank_iff. Qed.

Lemma head_code_units (s : string) (u : N) :
  head (JS16.code_units s) = Some u →
  ∃ c, head (String.list_ascii_of_string s) = Some c ∧ u = Ascii.N_of_ascii c.
Proof. destruct s as [|c s]; [done|]. intros [= <-]. by exists c. Qed.

Lemma last_code_units (s : string) (u : N) :
  last (JS16.code_units s) = Some u →
  ∃ c, last (String.list_ascii_of_string s) = Some c ∧ u = Ascii.N_of_ascii c.
Proof.
  unfold JS16.code_units. rewrite fmap_last.
  destruct (last (String.list_ascii_of_string s)) as [c|]; [|done].
  intros [= <-]. by exists c.
Qed.

(** ** More on [sendMessage] *)

(** X10, for typed text with code units below 256 (the strings of this
    development): a message that is empty or made only of the white space
    and line terminators of ECMAScript is ignored, whoever the user: the
    handler returns with the world unchanged and nothing shown or sent; and
    these are the only messages for which a run leaves no trace. *)
Theorem blank_message_ignored {Server} (backend : Backend Server)
    (r : State) (w : World Server) :
  let blank := Forall (λ u, JS16.is_white_space u = true)
                 (JS16.code_units (inputMessage r)) in
  (blank → sendMessage backend r w = {| result := Return (); after := w; trace := [] |}) ∧
  (trace (sendMessage backend r w) = [] → blank).
Proof.
  cbn zeta. split.
  - intros Hblank%trim_blank_code_units. unfold sendMessage.
    by rewrite Hblank.
  - intros Hempty. apply trim_blank_code_units.
    destruct (sendMessage_sent backend r w)
      as [Hblank|Hin Hadm Hcred|t1 a t2 Hin Hgate Hres Hcomp]; [done|done|].
    destruct t1; discriminate Hempty.
Qed.

(** X11: the credit check never stops an administrator: whatever the
    balance, a message that is not blank goes out as a completion request. *)
Theorem administrator_passes_credit_check {Server} (backend : Backend Server)
    (r : State) (w : World Server) (u : User.t) :
  user r = Some u → User.is_admin u = true →
  JS.trim (inputMessage r) ≠ "" →
  ∃ authorization,
    Request authorization (PostChat (chatData r)) ∈ trace (sendMessage backend r w).
Proof.
  intros Hu Hadm Hinput.
  assert (not_admin r = false) as Hnot by (unfold not_admin; by rewrite Hu; simpl; rewrite Hadm).
  destruct (sendMessage_sent backend r w)
    as [Hblank|Hin Hadm' Hcred|t1 a t2 Hin Hgate Hres Hcomp]; [done|congruence|].
  exists a. rewrite !elem_of_app, !elem_of_cons. tauto.
Qed.

Lemma administrator_passes_credit_check_witness :
  let r := Scripted.screen (User.with_credits Scripted.admin 0) (Some Scripted.chat1) "hey" in
  let w := Scripted.world (Scripted.replies [Success (Scripted.answer (Some 37))] []) r in
  ∃ authorization,
    Request authorization (PostChat (chatData r)) ∈ trace (sendMessage Scripted.backend r w).
Proof.
  apply (administrator_passes_credit_check Scripted.backend
           (Scripted.screen (User.with_credits Scripted.admin 0) (Some Scripted.chat1) "hey")
           (Scripted.world (Scripted.replies [Success (Scripted.answer (Some 37))] [])
              (Scripted.screen (User.with_credits Scripted.admin 0)
                 (Some Scripted.chat1) "hey"))
           (User.with_credits Scripted.admin 0));
    [reflexivity | reflexivity | vm_compute; discriminate].
Defined.

Lemma rejection_toasts_no_request error :
  filter (λ e, is_completion_request e) (rejection_toasts error) = [].
Proof. unfold rejection_toasts. by case_status. Qed.

Lemma resolution_no_request r t :
  resolution r t → filter (λ e, is_completion_request e) t = [].
Proof.
  intros [s Hs|a s Hs|a error Hs]; [done|done|].
  rewrite filter_cons_False by (simpl; tauto).
  by rewrite filter_app, rejection_toasts_no_request.
Qed.

Lemma completion_no_request r t :
  completion r t → filter (λ e, is_completion_request e) t = [].
Proof.
  intros [response ts [Hs|u tokens Hu Hadm Htok Hne|tokens Hu Htok Hne]|error];
    try done.
  by rewrite filter_app, rejection_toasts_no_request.
Qed.

Lemma no_request_not_in (t : list Event) authorization d :
  filter (λ e, is_completion_request e) t = [] →
  Request authorization (PostChat d) ∉ t.
Proof.
  intros Hnone Hin.
  assert (Request authorization (PostChat d) ∈ filter (λ e, is_completion_request e) t)
    as Hf by (by apply list_elem_of_filter).
  rewrite Hnone in Hf. by apply elem_of_nil in Hf.
Qed.

(** X12: a run of [sendMessage] sends at most one completion request, so a
    failed completion is never retried; and the body of that request is the
    conversation of the render followed by the new user turn, with the
    selected model, [max_tokens] 1000 and [temperature] 0.7. *)
Theorem one_completion_request {Server} (backend : Backend Server)
    (r : State) (w : World Server) :
  let t := trace (sendMessage backend r w) in
  (length (filter (λ e, is_completion_request e) t) ≤ 1)%nat ∧
  ∀ authorization d,
    Request authorization (PostChat d) ∈ t →
    ChatData.messages d = messages r ++ [userMessage r] ∧
    ChatData.model d = selectedModel r ∧
    ChatData.max_tokens d = 1000 ∧
    ChatData.temperature d = (7 # 10)%Q.
Proof.
  cbn zeta.
  destruct (sendMessage_sent backend r w)
    as [Hblank|Hin Hadm Hcred|t1 a t2 Hin Hgate Hres Hcomp].
  - split; [simpl; lia|]. by intros ?? ?%elem_of_nil.
  - split; [simpl; lia|]. intros ?? H. trace_mem H.
  - split.
    + rewrite !filter_app, (resolution_no_request _ _ Hres),
        (completion_no_request _ _ Hcomp). simpl. lia.
    + intros a' d H.
      pose proof (no_request_not_in _ a' d (resolution_no_request _ _ Hres)).
      pose proof (no_request_not_in _ a' d (completion_no_request _ _ Hcomp)).
      trace_mem H; done.
Qed.

Lemma blank_message_ignored_witness :
  sendMessage Scripted.backend (Scripted.screen Scripted.broke None "   ")
    (Scripted.world (Scripted.replies [] [])
       (Scripted.screen Scripted.broke None "   "))
  = {| result := Return ();
       after := Scripted.world (Scripted.replies [] [])
                  (Scripted.screen Scripted.broke None "   ");
       trace := [] |}.
Proof.
  apply (proj1 (blank_message_ignored Scripted.backend
                  (Scripted.screen Scripted.broke None "   ")
                  (Scripted.world (Scripted.replies [] [])
                     (Scripted.screen Scripted.broke None "   ")))).
  apply trim_blank_code_units. reflexivity.
Defined.

Lemma completion_idle r t authorization s :
  completion r t →
  let t' := [ Updated (SetMessages (messages r ++ [userMessage r]));
              Updated (SetInputMessage "");
              Updated (SetLoading true);
              Request authorization (PostChat (chatData r)) ]
            ++ t ++ [ Updated (SetLoading false) ] in
  inputMessage (replay t' s) = "" ∧ loading (replay t' s) = false ∧
  selectedModel (replay t' s) = selectedModel s.
Proof.
  intros [response ts [Hs|u tokens Hu Hadm Htok Hne|tokens Hu Htok Hne]|error];
    cbn zeta; rewrite ?replay_app, ?replay_rejection_toasts; done.
Qed.

Lemma replay_resolution_model r t s :
  resolution r t → selectedModel (replay t s) = selectedModel s.
Proof.
  intros [x Hx|a x Hx|a error Hx]; [done..|].
  cbn [replay foldl]. fold (replay (rejection_toasts error ++
    [ Rejected (PostChatSessions (sessionData r)) error;
      ConsoleError "Error creating session:" error;
      ToastError "Failed to create new session" ]) s).
  by rewrite replay_app, replay_rejection_toasts.
Qed.

(** X13: once a message has passed the blank check and the credit check,
    the handler ends with the input box emptied and the loading flag off,
    whatever the backend answered (the [finally] block), it leaves the
    selected model alone, and it never throws: every failure is caught and
    shown as a toast. *)
Theorem send_ends_idle {Server} (backend : Backend Server)
    (r : State) (w : World Server) :
  JS.trim (inputMessage r) ≠ "" →
  not_admin r && credits_exhausted r = false →
  let o := sendMessage backend r w in
  result o = Return () ∧
  inputMessage (state (after o)) = "" ∧
  loading (state (after o)) = false ∧
  selectedModel (state (after o)) = selectedModel (state w).
Proof.
  intros Hinput Hgate. cbn zeta.
  split; [apply sendMessage_returns|].
  rewrite (logged_sendMessage backend r w).
  destruct (sendMessage_sent backend r w)
    as [Hblank|Hin Hadm Hcred|t1 a t2 Hin Hgate' Hres Hcomp].
  - done.
  - by rewrite Hadm, Hcred in Hgate.
  - rewrite replay_app.
    destruct (completion_idle r t2 a (replay t1 (state w)) Hcomp) as (-> & -> & ->).
    by rewrite (replay_resolution_model _ _ _ Hres).
Qed.

Lemma send_ends_idle_witness :
  let r := Scripted.screen Scripted.alice (Some Scripted.chat1) " hey " in
  let w := Scripted.world (Scripted.replies [Failure Scripted.rate_limited] []) r in
  let o := sendMessage Scripted.backend r w in
  result o = Return () ∧
  inputMessage (state (after o)) = "" ∧
  loading (state (after o)) = false ∧
  selectedModel (state (after o)) = selectedModel (state w).
Proof.
  apply (send_ends_idle Scripted.backend
           (Scripted.screen Scripted.alice (Some Scripted.chat1) " hey ")
           (Scripted.world (Scripted.replies [Failure Scripted.rate_limited] [])
              (Scripted.screen Scripted.alice (Some Scripted.chat1) " hey ")));
    [vm_compute; discriminate | reflexivity].
Defined.

(** X14: a run of [sendMessage] either leaves the session list and the
    current session as they were, or, when the render had no current
    session, puts exactly one new session in front of the render's list and
    makes it current; it never removes or reorders sessions. *)
Theorem send_adds_at_most_one_session {Server} (backend : Backend Server)
    (r : State) (w : World Server) :
  let o := sendMessage backend r w in
  (sessions (state (after o)) = sessions (state w) ∧
   currentSession (state (after o)) = currentSession (state w)) ∨
  (currentSession r = None ∧
   ∃ s, sessions (state (after o)) = s :: sessions r ∧
        currentSession (state (after o)) = Some s).
Proof.
  cbn zeta. rewrite (logged_sendMessage backend r w).
  destruct (sendMessage_sent backend r w)
    as [Hblank|Hin Hadm Hcred|t1 a t2 Hin Hgate Hres Hcomp].
  - by left.
  - by left.
  - rewrite replay_app.
    destruct (completion_sessions r t2 a (replay t1 (state w)) Hcomp) as [-> ->].
    destruct Hres as [s Hs|a' s Hs|a' error Hs].
    + by left.
    + right. split; [done|]. by exists s.
    + left. cbn [replay foldl]. fold (replay (rejection_toasts error ++
        [ Rejected (PostChatSessions (sessionData r)) error;
          ConsoleError "Error creating session:" error;
          ToastError "Failed to create new session" ]) (state w)).
      by rewrite replay_app, replay_rejection_toasts.
Qed.

(** X15, for typed text with code units below 256 (the strings of this
    development): the user turn that is sent is [String.prototype.trim] of
    the typed text, that is the typed text with the white space and line
    terminators of ECMAScript at both ends taken off and nothing else: the
    typed text is a run of white space, the sent content, and a run of white
    space, and the sent content neither starts nor ends with white space and
    is not empty. *)
Theorem sent_user_turn_trimmed {Server} (backend : Backend Server)
    (r : State) (w : World Server) (authorization : option string) (d : ChatData.t) :
  Request authorization (PostChat d) ∈ trace (sendMessage backend r w) →
  ∃ content pre post,
    last (ChatData.messages d)
      = Some {| Message.role := "user"; Message.content := content |} ∧
    content ≠ "" ∧
    JS16.code_units content = JS16.trim (JS16.code_units (inputMessage r)) ∧
    inputMessage r = pre +:+ content +:+ post ∧
    Forall (λ u, JS16.is_white_space u = true) (JS16.code_units pre) ∧
    Forall (λ u, JS16.is_white_space u = true) (JS16.code_units post) ∧
    (∀ u, head (JS16.code_units content) = Some u → JS16.is_white_space u = false) ∧
    (∀ u, last (JS16.code_units content) = Some u → JS16.is_white_space u = false).
Proof.
  intros Hreq.
  destruct (trim_split (inputMessage r)) as (pre & post & Heq & Hpre & Hpost & Hhead & Hlast).
  exists (JS.trim (inputMessage r)), pre, post.
  destruct (sendMessage_sent backend r w)
    as [Hblank|Hin Hadm Hcred|t1 a t2 Hin Hgate Hres Hcomp].
  - by apply elem_of_nil in Hreq.
  - trace_mem Hreq.
  - pose proof (no_request_not_in _ authorization d (resolution_no_request _ _ Hres)).
    pose proof (no_request_not_in _ authorization d (completion_no_request _ _ Hcomp)).
    trace_mem Hreq; try done.
    split; [unfold chatData; cbn [ChatData.messages]; by rewrite last_snoc|].
    split; [done|]. split; [by rewrite trim_code_units|]. split; [done|].
    split; [by apply white_code_units|]. split; [by apply white_code_units|].
    split; intros u Hu.
    + apply head_code_units in Hu as (c & Hc & ->).
      rewrite is_white_space_code_unit. by apply Hhead.
    + apply last_code_units in Hu as (c & Hc & ->).
      rewrite is_white_space_code_unit. by apply Hlast.
Qed.

Lemma sent_user_turn_trimmed_witness :
  ∃ content pre post,
    last (ChatData.messages
            (chatData (Scripted.screen Scripted.alice (Some Scripted.chat1) " hey ")))
      = Some {| Message.role := "user"; Message.content := content |} ∧
    content ≠ "" ∧
    JS16.code_units content = JS16.trim (JS16.code_units " hey ") ∧
    " hey " = pre +:+ content +:+ post ∧
    Forall (λ u, JS16.is_white_space u = true) (JS16.code_units pre) ∧
    Forall (λ u, JS16.is_white_space u = true) (JS16.code_units post) ∧
    (∀ u, head (JS16.code_units content) = Some u → JS16.is_white_space u = false) ∧
    (∀ u, last (JS16.code_units content) = Some u → JS16.is_white_space u = false).
Proof.
  apply (sent_user_turn_trimmed Scripted.backend
           (Scripted.screen Scripted.alice (Some Scripted.chat1) " hey ")
           (Scripted.world (Scripted.replies [Failure Scripted.rate_limited] [])
              (Scripted.screen Scripted.alice (Some Scripted.chat1) " hey "))
           (Some "Bearer jwt")
           (chatData (Scripted.screen Scripted.alice (Some Scripted.chat1) " hey "))).
  vm_compute. do 3 apply list_elem_of_further. apply list_elem_of_here.
Defined.



(** ** The token and the interceptors of [api] *)

Lemma request_interceptor_header {Server} (w : World Server) (header : string) :
  request_interceptor w = Some header ↔
  ∃ token, getToken w = Some token ∧ token ≠ "" ∧ header = "Bearer " +:+ token.
Proof.
  unfold request_interceptor. split.
  - destruct (getToken w) as [token|]; [|done].
    destruct (JS.truthy_string token) eqn:Htruthy; [|done].
    intros [= <-]. exists token. by apply truthy_string_true in Htruthy.
  - intros (token & -> & Hne%truthy_string_true & ->). by rewrite Hne.
Qed.

(** X17: a request carries an [Authorization] header exactly when a token
    that is not the empty string is stored, and the header is then
    ["Bearer "] followed by that token.  So [setToken] decides the header of
    the next request (none for the empty token), [removeToken] takes it
    away, after a [setToken] or on any storage; each of the two writes the
    one key ["token"] of the storage, shows nothing, and leaves the
    component state, the server and the location as they were. *)
Theorem token_decides_authorization {Server} (w : World Server) (token : string) :
  (∀ header,
     request_interceptor w = Some header ↔
     ∃ stored, getToken w = Some stored ∧ stored ≠ "" ∧ header = "Bearer " +:+ stored) ∧
  (let o := setToken token w in
   result o = Return () ∧ trace o = [] ∧
   getToken (after o) = Some token ∧
   request_interceptor (after o)
     = (if bool_decide (token = "") then None else Some ("Bearer " +:+ token)) ∧
   state (after o) = state w ∧ server (after o) = server w ∧
   location (after o) = location w) ∧
  (let o := removeToken (after (setToken token w)) in
   result o = Return () ∧ trace o = [] ∧
   getToken (after o) = None ∧ request_interceptor (after o) = None ∧
   localStorage (after o) = delete "token" (localStorage w) ∧
   state (after o) = state w ∧ server (after o) = server w ∧
   location (after o) = location w) ∧
  (let o := removeToken w in
   result o = Return () ∧ trace o = [] ∧
   getToken (after o) = None ∧ request_interceptor (after o) = None ∧
   localStorage (after o) = delete "token" (localStorage w) ∧
   state (after o) = state w ∧ server (after o) = server w ∧
   location (after o) = location w) ∧
  localStorage (after (setToken token w)) = <["token" := token]> (localStorage w).
Proof.
  split; [intros header; apply request_interceptor_header|]. split.
  - cbn zeta. unfold request_interceptor, getToken, setToken, set_localStorage.
    cbn [result after trace localStorage with_localStorage state server location].
    rewrite lookup_insert_eq. repeat split; try done.
    case_bool_decide as Htoken.
    + by rewrite Htoken.
    + by apply truthy_string_true in Htoken as ->.
  - cbn zeta. unfold request_interceptor, getToken, removeToken, setToken, set_localStorage.
    cbn [result after trace localStorage with_localStorage state server location].
    rewrite !lookup_delete_eq. repeat split; try done.
    by rewrite delete_insert_eq.
Qed.

(** X18: a request the backend answers with success goes through both
    interceptors untouched: the caller gets the data the route returned, the
    trace holds the request and its fulfilment and nothing else (no toast),
    and only the server state changes. *)
Theorem fulfilled_request_passes_through {Server A} (c : Call) (body : A → Payload)
    (route : option string → Server → Reply A * Server)
    (w : World Server) (data : A) (srv : Server) :
  route (request_interceptor w) (server w) = (Success data, srv) →
  let o := api_request c body route w in
  result o = Return data ∧
  trace o = [Request (request_interceptor w) c; Fulfilled c (body data)] ∧
  server (after o) = srv ∧
  state (after o) = state w ∧
  localStorage (after o) = localStorage w ∧
  location (after o) = location w.
Proof.
  intros Hroute. cbn zeta. rewrite api_request_eq. cbn zeta. by rewrite Hroute.
Qed.

Lemma fulfilled_request_passes_through_witness :
  let r := Scripted.screen Scripted.alice (Some Scripted.chat1) "hey" in
  let w := Scripted.world (Scripted.replies [Success (Scripted.answer (Some 37))] []) r in
  let o := api_request (PostChat (chatData r)) ChatBody
             (λ a, post_chat Scripted.backend a (chatData r)) w in
  result o = Return (Scripted.answer (Some 37)) ∧
  trace o = [Request (request_interceptor w) (PostChat (chatData r));
             Fulfilled (PostChat (chatData r)) (ChatBody (Scripted.answer (Some 37)))] ∧
  server (after o) = Scripted.replies [] [] ∧
  state (after o) = state w ∧
  localStorage (after o) = localStorage w ∧
  location (after o) = location w.
Proof.
  exact (fulfilled_request_passes_through
           (PostChat (chatData (Scripted.screen Scripted.alice (Some Scripted.chat1) "hey")))
           ChatBody
           (λ a, post_chat Scripted.backend a
                   (chatData (Scripted.screen Scripted.alice (Some Scripted.chat1) "hey")))
           (Scripted.world (Scripted.replies [Success (Scripted.answer (Some 37))] [])
              (Scripted.screen Scripted.alice (Some Scripted.chat1) "hey"))
           (Scripted.answer (Some 37)) (Scripted.replies [] []) eq_refl).
Defined.

(** X19: after a request was answered with 401 the client is logged out for
    good: whatever token was stored, the next request carries no
    [Authorization] header, and the browser is at the login page. *)
Theorem unauthorized_then_anonymous {Server A} (c : Call) (body : A → Payload)
    (route : option string → Server → Reply A * Server)
    (w : World Server) (response : option HttpError.t) (srv : Server) :
  route (request_interceptor w) (server w) = (Failure response, srv) →
  response_status (AxiosError response) = Some 401 →
  let o := api_request c body route w in
  request_interceptor (after o) = None ∧
  getToken (after o) = None ∧
  location (after o) = "/login".
Proof.
  intros Hroute Hstatus. cbn zeta. rewrite api_request_eq. cbn zeta. rewrite Hroute.
  cbn [fst snd after]. unfold rejection_world. rewrite bool_decide_eq_true_2 by done.
  unfold request_interceptor, getToken.
  cbn [localStorage with_localStorage with_location with_server location].
  by rewrite lookup_delete_eq.
Qed.

Lemma unauthorized_then_anonymous_witness :
  let r := Scripted.screen Scripted.alice (Some Scripted.chat1) "again" in
  let w := Scripted.world (Scripted.replies [Failure Scripted.expired] []) r in
  let o := api_request (PostChat (chatData r)) ChatBody
             (λ a, post_chat Scripted.backend a (chatData r)) w in
  request_interceptor (after o) = None ∧
  getToken (after o) = None ∧
  location (after o) = "/login".
Proof.
  exact (unauthorized_then_anonymous
           (PostChat (chatData (Scripted.screen Scripted.alice (Some Scripted.chat1) "again")))
           ChatBody
           (λ a, post_chat Scripted.backend a
                   (chatData (Scripted.screen Scripted.alice (Some Scripted.chat1) "again")))
           (Scripted.world (Scripted.replies [Failure Scripted.expired] [])
              (Scripted.screen Scripted.alice (Some Scripted.chat1) "again"))
           Scripted.expired (Scripted.replies [] []) eq_refl eq_refl).
Defined.

(** ** [AuthProvider] *)

Section PageSteps.
Import Page.
Context {C : Component}.
Implicit Types (w : World C).

Lemma page_bind_unfold {A B} (m : M C A) (k : A → M C B) w :
  bind m k w =
  match result (m w) with
  | Return a => prepend (trace (m w)) (k a (after (m w)))
  | Throw error => {| result := Throw error; after := after (m w); trace := trace (m w) |}
  end.
Proof. reflexivity. Qed.

Lemma page_try_catch_unfold {A} (body : M C A) handler w :
  try_catch body handler w =
  match result (body w) with
  | Return a => body w
  | Throw error => prepend (trace (body w)) (handler error (after (body w)))
  end.
Proof. reflexivity. Qed.

Lemma page_try_finally_unfold {A} (body : M C A) fin w :
  try_finally body fin w =
  {| result := match result (fin (after (body w))) with
               | Return _ => result (body w)
               | Throw error => Throw error
               end;
     after := after (fin (after (body w)));
     trace := trace (body w) ++ trace (fin (after (body w))) |}.
Proof. reflexivity. Qed.

Lemma page_response_rejected_eq {A} error w :
  response_rejected (A:=A) error w =
  {| result := Throw error; after := rejection_world error w;
     trace := rejection_toasts error |}.
Proof.
  unfold response_rejected, rejection_world, rejection_toasts.
  by case_status.
Qed.

Lemma page_api_request_eq {A} c (route : option string → Server C → Reply A * Server C) w :
  api_request c route w =
  let authorization := request_interceptor w in
  let reply := route authorization (server w) in
  match reply.1 with
  | Success data =>
      {| result := Return data; after := with_server reply.2 w;
         trace := [Request authorization c; Fulfilled c] |}
  | Failure response =>
      {| result := Throw (AxiosError response);
         after := rejection_world (AxiosError response) (with_server reply.2 w);
         trace := Request authorization c
                  :: rejection_toasts (AxiosError response)
                  ++ [Rejected c (AxiosError response)] |}
  end.
Proof.
  unfold api_request, bind, transmit, settle; simpl.
  destruct (route (request_interceptor w) (server w)) as [[data|response] srv]; simpl.
  - reflexivity.
  - rewrite page_response_rejected_eq. reflexivity.
Qed.

Lemma page_request_interceptor_none w :
  request_interceptor w = None ↔ from_option JS.truthy_string false (getToken w) = false.
Proof.
  unfold request_interceptor. destruct (getToken w) as [token|]; [|done].
  simpl. by destruct (JS.truthy_string token).
Qed.

Lemma page_rejection_toasts_requests error :
  filter (λ e, is_request e) (rejection_toasts (C:=C) error) = [].
Proof. unfold rejection_toasts. by case_status. Qed.

Lemma page_rejection_toasts_toasts error :
  filter (λ e, is_toast e) (rejection_toasts (C:=C) error) = rejection_toasts error.
Proof. unfold rejection_toasts. by case_status. Qed.

Lemma page_state_rejection_world error w : state (rejection_world error w) = state w.
Proof. unfold rejection_world. by case_status. Qed.

Lemma page_server_rejection_world error w : server (rejection_world error w) = server w.
Proof. unfold rejection_world. by case_status. Qed.

Lemma page_token_rejection_world error w :
  getToken (rejection_world error w) = None ∨
  localStorage (rejection_world error w) = localStorage w.
Proof.
  unfold rejection_world. case_status; [left|by right].
  unfold getToken. simpl. apply lookup_delete_eq.
Qed.

End PageSteps.

Ltac page_primitives :=
  unfold Page.toast_error, Page.toast_success, Page.console_error,
    Page.setToken, Page.removeToken, Page.set_state, Page.set_localStorage,
    Page.set_location, Page.emit, Page.ret, Page.throw in *.

Ltac page_run :=
  repeat first
    [ rewrite page_bind_unfold
    | rewrite page_try_catch_unfold
    | rewrite page_try_finally_unfold
    | rewrite <- app_assoc
    | progress cbn [Page.result Page.after Page.trace Page.prepend fst snd app] ].


Lemma no_page_request_in_toasts {C : Page.Component} (error : Exn) authorization c :
  Page.Request authorization c ∉ Page.rejection_toasts (C:=C) error.
Proof.
  unfold Page.rejection_toasts. case_status; intros Hin.
  - apply elem_of_cons in Hin as [Hin|Hin]; [done|]. by apply elem_of_nil in Hin.
  - apply elem_of_cons in Hin as [Hin|Hin]; [done|]. by apply elem_of_nil in Hin.
  - by apply elem_of_nil in Hin.
Qed.

Section AuthFacts.
Import Page Auth.
Context {Server UserData : Type} (backend : Backend Server UserData).
Local Abbreviation C := (component Server UserData).
Implicit Types (w : World C).

(** X20: a login the backend accepts stores the access token, sets the user
    it returned, says so once, and returns [{ success: true }]; from then on
    a request carries that token (unless the token is the empty string).
    The loading flag and the location stay as they were. *)
Theorem login_stores_token (userData : UserData) w (data : LoginData.t) (srv : Server) :
  post_auth_login backend (request_interceptor w) userData (server w)
    = (Success data, srv) →
  let o := login backend userData w in
  result o = Return {| success := true; error := None |} ∧
  trace o = [ Request (C:=C) (request_interceptor w) (PostAuthLogin userData);
              Fulfilled (C:=C) (PostAuthLogin userData);
              Updated (C:=C) (SetUser (Some (LoginData.user data)));
              ToastSuccess "Login successful!" ] ∧
  state (after o) = {| user := Some (LoginData.user data);
                       loading := loading (state w) |} ∧
  getToken (after o) = Some (LoginData.access_token data) ∧
  request_interceptor (after o)
    = (if bool_decide (LoginData.access_token data = "") then None
       else Some ("Bearer " +:+ LoginData.access_token data)) ∧
  location (after o) = location w ∧
  server (after o) = srv.
Proof.
  intros Hroute. cbn zeta.
  unfold login, authAPI_login, setUser. page_primitives.
  page_run. rewrite page_api_request_eq. cbn zeta. rewrite Hroute. page_run.
  unfold request_interceptor, getToken. simpl.
  rewrite lookup_insert_eq. repeat split; try done.
  case_bool_decide as Htoken.
  - by rewrite Htoken.
  - by apply truthy_string_true in Htoken as ->.
Qed.



(** X22: [register] never logs anybody in: whatever the backend answers, it
    returns an answer instead of throwing, sends exactly one request, leaves
    the user and the loading flag alone and stores no token (the stored
    token stays, or is removed by the interceptor on a 401).  It reports
    success exactly when the backend accepted the registration. *)
Theorem register_never_logs_in (userData : UserData) w :
  let o := register backend userData w in
  let reply := (post_auth_register backend (request_interceptor w) userData (server w)).1 in
  (∃ answer, result o = Return answer ∧
     (success answer = true ↔ reply = Success ()) ∧
     (error answer = None ↔ reply = Success ())) ∧
  length (filter (λ e, is_request e) (trace o)) = 1%nat ∧
  state (after o) = state w ∧
  (getToken (after o) = None ∨ localStorage (after o) = localStorage w).
Proof.
  cbn zeta. unfold register, authAPI_register. page_primitives.
  page_run. rewrite page_api_request_eq. cbn zeta.
  destruct (post_auth_register _ _ _ _) as [[[]|response] srv]; page_run.
  - split; [eexists; split; [done|]; by split|]. split; [done|]. split; [done|]. by right.
  - split; [eexists; split; [done|]; by split|].
    split.
    + cbn [filter]. rewrite filter_cons_True by done.
      rewrite filter_app, page_rejection_toasts_requests. done.
    + split; [by rewrite page_state_rejection_world|].
      destruct (page_token_rejection_world (AxiosError response) (with_server (C:=C) srv w))
        as [Hnone|Hsame]; [by left|right; by rewrite Hsame].
Qed.

(** X23: [logout] removes the token and the user and says so, without any
    request and without moving the browser; afterwards a request carries no
    [Authorization] header, and an auth check only turns the loading flag
    off: it sends nothing and leaves the user signed out. *)
Theorem logout_signs_out w :
  let o := logout w in
  result o = Return () ∧
  trace o = [ Updated (C:=C) (SetUser None); ToastSuccess "Logged out successfully" ] ∧
  user (state (after o)) = None ∧
  loading (state (after o)) = loading (state w) ∧
  localStorage (after o) = delete "token" (localStorage w) ∧
  request_interceptor (after o) = None ∧
  location (after o) = location w ∧
  server (after o) = server w ∧
  let o' := checkAuthStatus backend (after o) in
  result o' = Return () ∧
  trace o' = [ Updated (C:=C) (SetLoading false) ] ∧
  state (after o') = {| user := None; loading := false |} ∧
  localStorage (after o') = localStorage (after o).
Proof.
  cbn zeta. unfold logout, checkAuthStatus, setUser, setLoading,
    request_interceptor, getToken. page_primitives.
  page_run. simpl. rewrite lookup_delete_eq. simpl. done.
Qed.

(** X24: the auth check asks the backend exactly when a token that is not
    the empty string is stored, the same condition under which the request
    interceptor adds the header: so the request of an auth check always
    carries the [Authorization] header of the stored token. *)
Theorem auth_check_sends_token w :
  let t := trace (checkAuthStatus backend w) in
  (filter (λ e, is_request e) t = [] ↔ request_interceptor w = None) ∧
  (length (filter (λ e, is_request e) t) ≤ 1)%nat ∧
  ∀ authorization c,
    Request authorization c ∈ t →
    c = GetAuthMe ∧
    ∃ token, getToken w = Some token ∧ token ≠ "" ∧
             authorization = Some ("Bearer " +:+ token).
Proof.
  cbn zeta. unfold checkAuthStatus, authAPI_getMe, setUser, setLoading. page_primitives.
  rewrite page_bind_unfold.
  destruct (from_option JS.truthy_string false (getToken w)) eqn:Htoken.
  - assert (∃ token, getToken w = Some token ∧ token ≠ "" ∧
              request_interceptor w = Some ("Bearer " +:+ token))
      as (token & Hget & Hne & Hheader).
    { unfold request_interceptor. destruct (getToken w) as [token|]; [|done].
      simpl in Htoken. exists token. rewrite Htoken.
      by apply truthy_string_true in Htoken. }
    page_run. rewrite page_api_request_eq. cbn zeta.
    destruct (get_auth_me _ _ _) as [[u|response] srv]; page_run.
    + rewrite Hheader. split; [done|]. split; [simpl; lia|].
      intros a c Hin. apply elem_of_cons in Hin as [[= -> ->]|Hin]; [by eauto|].
      repeat (apply elem_of_cons in Hin as [Hin|Hin]; [done|]).
      by apply elem_of_nil in Hin.
    + rewrite Hheader. split; [done|].
      cbn [filter]. rewrite filter_cons_True by done.
      rewrite !filter_app, page_rejection_toasts_requests. split; [simpl; lia|].
      intros a c Hin. apply elem_of_cons in Hin as [[= -> ->]|Hin]; [by eauto|].
      apply elem_of_app in Hin as [Hin|Hin].
      * pose proof (no_page_request_in_toasts (C:=C) (AxiosError response) a c). done.
      * repeat (apply elem_of_cons in Hin as [Hin|Hin]; [done|]).
        by apply elem_of_nil in Hin.
  - apply page_request_interceptor_none in Htoken as Hnone.
    page_run. split; [done|]. split; [simpl; lia|].
    intros a c Hin. apply elem_of_cons in Hin as [Hin|Hin]; [done|].
    by apply elem_of_nil in Hin.
Qed.

(** X25: whatever is stored and whatever the backend answers, the auth
    check returns without throwing and its last act is to turn the loading
    flag off. *)
Theorem auth_check_ends_loading w :
  let o := checkAuthStatus backend w in
  result o = Return () ∧
  last (trace o) = Some (Updated (C:=C) (SetLoading false)) ∧
  loading (state (after o)) = false.
Proof.
  cbn zeta. unfold checkAuthStatus, authAPI_getMe, setUser, setLoading. page_primitives.
  rewrite page_bind_unfold.
  destruct (from_option JS.truthy_string false (getToken w)); page_run; [|done].
  rewrite page_api_request_eq. cbn zeta.
  destruct (get_auth_me _ _ _) as [[u|response] srv]; page_run; [done|].
  split; [done|]. split; [|done].
  rewrite app_comm_cons, last_app. done.
Qed.

(** X26: an auth check the backend refuses, for whatever reason (also when
    no reply arrives), removes the stored token, so that the next request
    carries no header; the user is left as it was, the failure is written
    to the console, and the only toasts are those of the response
    interceptor: the provider shows none of its own. *)
Theorem auth_check_refused w (response : option HttpError.t) (srv : Server) :
  request_interceptor w ≠ None →
  get_auth_me backend (request_interceptor w) (server w) = (Failure response, srv) →
  let failure := AxiosError response in
  let o := checkAuthStatus backend w in
  getToken (after o) = None ∧
  request_interceptor (after o) = None ∧
  user (state (after o)) = user (state w) ∧
  ConsoleError "Auth check failed:" failure ∈ trace o ∧
  filter (λ e, is_toast e) (trace o) = rejection_toasts failure ∧
  server (after o) = srv.
Proof.
  intros Hheader Hroute. cbn zeta.
  unfold checkAuthStatus, authAPI_getMe, setUser, setLoading. page_primitives.
  rewrite page_bind_unfold.
  destruct (from_option JS.truthy_string false (getToken w)) eqn:Htoken;
    [|by apply page_request_interceptor_none in Htoken].
  page_run. rewrite page_api_request_eq. cbn zeta. rewrite Hroute. page_run.
  unfold request_interceptor, getToken. simpl. rewrite lookup_delete_eq.
  split; [done|]. split; [done|].
  split; [by rewrite page_state_rejection_world|].
  split.
  { apply list_elem_of_further, elem_of_app. right.
    apply list_elem_of_further, list_elem_of_here. }
  split; [|by rewrite page_server_rejection_world].
  rewrite filter_cons_False by (simpl; tauto).
  rewrite filter_app, page_rejection_toasts_toasts.
  cbn. by rewrite app_nil_r.
Qed.

(** X27: an auth check the backend accepts sets the user it returned and
    keeps the token; nothing is shown. *)
Theorem auth_check_accepted w (u : User.t) (srv : Server) :
  request_interceptor w ≠ None →
  get_auth_me backend (request_interceptor w) (server w) = (Success u, srv) →
  let o := checkAuthStatus backend w in
  state (after o) = {| user := Some u; loading := false |} ∧
  trace o = [ Request (C:=C) (request_interceptor w) GetAuthMe;
              Fulfilled (C:=C) GetAuthMe;
              Updated (C:=C) (SetUser (Some u));
              Updated (C:=C) (SetLoading false) ] ∧
  localStorage (after o) = localStorage w ∧
  location (after o) = location w ∧
  server (after o) = srv.
Proof.
  intros Hheader Hroute. cbn zeta.
  unfold checkAuthStatus, authAPI_getMe, setUser, setLoading. page_primitives.
  rewrite page_bind_unfold.
  destruct (from_option JS.truthy_string false (getToken w)) eqn:Htoken;
    [|by apply page_request_interceptor_none in Htoken].
  page_run. rewrite page_api_request_eq. cbn zeta. rewrite Hroute. by page_run.
Qed.

End AuthFacts.

Section AuthRuns.
Import Page Auth.

Lemma login_stores_token_witness :
  let backend := AuthDemo.backend (Success ()) (Success AuthDemo.granted)
                   (Success Scripted.alice) in
  let w := AuthDemo.world None None in
  let o := login backend ("alice", "secret") w in
  result o = Return {| success := true; error := None |} ∧
  trace o = [ Request (C:=component () (string * string)) None
                (PostAuthLogin ("alice", "secret"));
              Fulfilled (C:=component () (string * string))
                (PostAuthLogin ("alice", "secret"));
              Updated (C:=component () (string * string)) (SetUser (Some Scripted.alice));
              ToastSuccess "Login successful!" ] ∧
  state (after o) = {| user := Some Scripted.alice; loading := true |} ∧
  getToken (after o) = Some "jwt2" ∧
  request_interceptor (after o) = Some "Bearer jwt2" ∧
  location (after o) = "/" ∧
  server (after o) = ().
Proof.
  exact (login_stores_token
           (AuthDemo.backend (Success ()) (Success AuthDemo.granted) (Success Scripted.alice))
           ("alice", "secret") (AuthDemo.world None None) AuthDemo.granted () eq_refl).
Defined.


Example login_refused_two_toasts :
  trace (login (AuthDemo.backend (Success ()) (Failure AuthDemo.wrong_password)
                  (Success Scripted.alice))
           ("alice", "guess") (AuthDemo.world (Some "old") None))
  = [ Request (C:=component () (string * string)) (Some "Bearer old")
        (PostAuthLogin ("alice", "guess"));
      ToastError "Session expired. Please login again.";
      Rejected (C:=component () (string * string)) (PostAuthLogin ("alice", "guess"))
        (AxiosError AuthDemo.wrong_password);
      ToastError "Incorrect username or password" ].
Proof. reflexivity. Qed.

Lemma auth_check_refused_witness :
  let backend := AuthDemo.backend (Success ()) (Success AuthDemo.granted) (Failure None) in
  let w := AuthDemo.world (Some "old") (Some Scripted.alice) in
  let failure := AxiosError None in
  let o := checkAuthStatus backend w in
  getToken (after o) = None ∧
  request_interceptor (after o) = None ∧
  user (state (after o)) = user (state w) ∧
  ConsoleError "Auth check failed:" failure ∈ trace o ∧
  filter (λ e, is_toast e) (trace o) = rejection_toasts failure ∧
  server (after o) = ().
Proof.
  apply (auth_check_refused
           (AuthDemo.backend (Success ()) (Success AuthDemo.granted) (Failure None))
           (AuthDemo.world (Some "old") (Some Scripted.alice)) None ());
    [vm_compute; discriminate | reflexivity].
Defined.

Lemma auth_check_accepted_witness :
  let backend := AuthDemo.backend (Success ()) (Success AuthDemo.granted)
                   (Success Scripted.alice) in
  let w := AuthDemo.world (Some "old") None in
  let o := checkAuthStatus backend w in
  state (after o) = {| user := Some Scripted.alice; loading := false |} ∧
  trace o = [ Request (C:=component () (string * string)) (request_interceptor w) GetAuthMe;
              Fulfilled (C:=component () (string * string)) GetAuthMe;
              Updated (C:=component () (string * string)) (SetUser (Some Scripted.alice));
              Updated (C:=component () (string * string)) (SetLoading false) ] ∧
  localStorage (after o) = localStorage w ∧
  location (after o) = location w ∧
  server (after o) = ().
Proof.
  apply (auth_check_accepted
           (AuthDemo.backend (Success ()) (Success AuthDemo.granted) (Success Scripted.alice))
           (AuthDemo.world (Some "old") None) Scripted.alice ());
    [vm_compute; discriminate | reflexivity].
Defined.

End AuthRuns.

(** ** The loaders of [Chat] *)

Section LoaderFacts.
Import Page Loaders.
Context {Server : Type} (backend : Backend Server).
Local Abbreviation C := (component Server).
Implicit Types (w : World C).

(** X28: [fetchModels] returns without throwing and always ends with the
    loading flag of the model selector turned off, whatever the backend
    answered.  On success the model list becomes the list of the response,
    or the empty list when the response has none; on failure the list stays
    as it was and the failure is shown.  The session list is never touched. *)
Theorem fetchModels_settles w :
  let o := fetchModels backend w in
  let reply := (get_models backend (request_interceptor w) (server w)).1 in
  result o = Return () ∧
  last (trace o) = Some (Updated (C:=C) (SetModelsLoading false)) ∧
  modelsLoading (state (after o)) = false ∧
  sessions (state (after o)) = sessions (state w) ∧
  models (state (after o)) =
    match reply with
    | Success data => default [] (ModelsData.models data)
    | Failure _ => models (state w)
    end ∧
  (ToastError "Failed to fetch available models" ∈ trace o ↔
   ∃ response, reply = Failure response).
Proof.
  cbn zeta. unfold fetchModels, chatAPI_getModels, setModels, setModelsLoading.
  page_primitives. page_run. rewrite page_api_request_eq. cbn zeta.
  destruct (get_models _ _ _) as [[data|response] srv]; page_run.
  - repeat split; try done.
    + intros Hin. repeat (apply elem_of_cons in Hin as [Hin|Hin]; [done|]).
      by apply elem_of_nil in Hin.
    + by intros [? ?].
  - split; [done|]. split.
    { rewrite app_comm_cons, last_app. done. }
    split; [done|]. simpl. rewrite page_state_rejection_world.
    repeat split; try done; [by eauto|].
    intros _. apply list_elem_of_further, elem_of_app. right.
    do 2 apply list_elem_of_further. apply list_elem_of_here.
Qed.

(** X29: [fetchSessions] returns without throwing.  On success the session
    list is replaced by the list of the response and nothing is shown; on
    failure the list stays as it was, the failure is written to the console
    (the last event of the run) and to the console only: the only toasts are
    those of the response interceptor (none unless the status is 401 or
    402).  The model list and its loading flag are never touched. *)
Theorem fetchSessions_outcome w :
  let o := fetchSessions backend w in
  let reply := (get_chat_sessions backend (request_interceptor w) (server w)).1 in
  result o = Return () ∧
  trace o =
    match reply with
    | Success data =>
        [ Request (C:=C) (request_interceptor w) GetChatSessions;
          Fulfilled (C:=C) GetChatSessions;
          Updated (C:=C) (SetSessions data) ]
    | Failure response =>
        Request (C:=C) (request_interceptor w) GetChatSessions
        :: rejection_toasts (AxiosError response)
        ++ [ Rejected (C:=C) GetChatSessions (AxiosError response);
             ConsoleError "Error fetching sessions:" (AxiosError response) ]
    end ∧
  (∀ response, reply = Failure response →
     ConsoleError "Error fetching sessions:" (AxiosError response) ∈ trace o) ∧
  sessions (state (after o)) =
    match reply with
    | Success data => data
    | Failure _ => sessions (state w)
    end ∧
  models (state (after o)) = models (state w) ∧
  modelsLoading (state (after o)) = modelsLoading (state w) ∧
  filter (λ e, is_toast e) (trace o) =
    match reply with
    | Success _ => []
    | Failure response => rejection_toasts (AxiosError response)
    end ∧
  (∀ label failure, ConsoleError label failure ∈ trace o →
     label = "Error fetching sessions:" ∧ reply = Failure (
       match failure with AxiosError response => response | TypeError => None end)).
Proof.
  cbn zeta. unfold fetchSessions, chatAPI_getSessions, setSessions.
  page_primitives. page_run. rewrite page_api_request_eq. cbn zeta.
  destruct (get_chat_sessions _ _ _) as [[data|response] srv]; page_run.
  - split; [done|]. split; [done|]. split; [done|].
    repeat split; try done;
      repeat (apply elem_of_cons in H as [H|H]; [done|]); by apply elem_of_nil in H.
  - split; [done|]. split; [done|].
    split.
    { intros response' [= <-]. apply list_elem_of_further, elem_of_app. right.
      apply list_elem_of_further, list_elem_of_here. }
    simpl. rewrite page_state_rejection_world.
    repeat split; try done.
    + rewrite filter_cons_False by (simpl; tauto).
      rewrite filter_app, page_rejection_toasts_toasts. cbn. by rewrite app_nil_r.
    + apply elem_of_cons in H as [H|H]; [done|].
      apply elem_of_app in H as [H|H].
      * unfold rejection_toasts in H. revert H. case_status; intros H;
          repeat (apply elem_of_cons in H as [H|H]; [done|]); by apply elem_of_nil in H.
      * apply elem_of_cons in H as [H|H]; [done|].
        apply elem_of_cons in H as [H|H]; [by injection H|]. by apply elem_of_nil in H.
    + apply elem_of_cons in H as [H|H]; [done|].
      apply elem_of_app in H as [H|H].
      * unfold rejection_toasts in H. revert H. case_status; intros H;
          repeat (apply elem_of_cons in H as [H|H]; [done|]); by apply elem_of_nil in H.
      * apply elem_of_cons in H as [H|H]; [done|].
        apply elem_of_cons in H as [H|H]; [by injection H as -> ->|].
        by apply elem_of_nil in H.
Qed.

End LoaderFacts.

Section LoaderRuns.
Import Page Loaders.

Example fetchModels_without_list :
  let backend := LoadersDemo.backend (Success {| ModelsData.models := None |})
                   (Success []) in
  let o := fetchModels backend LoadersDemo.world in
  state (after o) = {| models := []; sessions := [Scripted.chat1];
                       modelsLoading := false |}.
Proof. reflexivity. Qed.

Example fetchSessions_unavailable :
  let backend := LoadersDemo.backend (Failure LoadersDemo.unavailable)
                   (Failure LoadersDemo.unavailable) in
  let o := fetchSessions backend LoadersDemo.world in
  trace o = [ Request (C:=component ()) (Some "Bearer jwt") GetChatSessions;
              Rejected (C:=component ()) GetChatSessions
                (AxiosError LoadersDemo.unavailable);
              ConsoleError "Error fetching sessions:"
                (AxiosError LoadersDemo.unavailable) ] ∧
  state (after o) = state LoadersDemo.world.
Proof. split; reflexivity. Qed.

End LoaderRuns.
